(** * Archive service: URL normalisation, size guard, format dispatch

    A shallow embedding of [archiveService.js].  The request handler of
    [GET /archive] is written as a state-and-exception computation over an
    explicit world (file system, open browser pages, console); the calls into
    the browser engine and the file system take their outcome from a record
    of externals, so that every exit path of the handler can be followed. *)

From Stdlib Require Import Ascii.
From stdpp Require Import base gmap strings list.

(** ** JavaScript string primitives used by the service *)

Module JsString.

(** [s.startsWith(p)] *)
Fixpoint startsWith (s p : string) : bool :=
  match p with
  | EmptyString => true
  | String a p' =>
      match s with
      | EmptyString => false
      | String b s' => if Ascii.eqb a b then startsWith s' p' else false
      end
  end.

(** [s.includes(p)]: [p] occurs in [s] at some position, code unit by code
    unit (no case folding). *)
Fixpoint includes (s p : string) : bool :=
  startsWith s p ||
  match s with
  | EmptyString => false
  | String _ s' => includes s' p
  end.

(** [s.split(sep)] for a one-character separator; the result is never empty. *)
Fixpoint split (s : string) (sep : Ascii.ascii) : list string :=
  match s with
  | EmptyString => [EmptyString]
  | String c s' =>
      if Ascii.eqb c sep then EmptyString :: split s' sep
      else match split s' sep with
           | [] => [String c EmptyString]
           | x :: xs => String c x :: xs
           end
  end.

(** Truthiness of a string: only the empty string is falsy. *)
Definition truthy (s : string) : bool :=
  match s with EmptyString => false | String _ _ => true end.

(** [StrWhiteSpaceChar] restricted to one-byte code units: TAB, LF, VT, FF,
    CR, SP and NBSP. *)
Definition isWhiteSpace (c : Ascii.ascii) : bool :=
  let n := Ascii.nat_of_ascii c in
  bool_decide (n ∈ [9; 10; 11; 12; 13; 32; 160]).

Fixpoint trimStart (s : string) : string :=
  match s with
  | EmptyString => EmptyString
  | String c s' => if isWhiteSpace c then trimStart s' else s
  end.

Definition digitValue (c : Ascii.ascii) : option Z :=
  let n := Z.of_nat (Ascii.nat_of_ascii c) in
  if bool_decide (48 ≤ n ≤ 57)%Z then Some (n - 48)%Z else None.

(** Value of the longest prefix of decimal digits, with the number of
    digits consumed; [acc] is the value read so far. *)
Fixpoint readDigits (s : string) (acc : Z) (count : nat) : Z * nat :=
  match s with
  | EmptyString => (acc, count)
  | String c s' =>
      match digitValue c with
      | Some d => readDigits s' (10 * acc + d)%Z (S count)
      | None => (acc, count)
      end
  end.

(** [parseInt(s, 10)].  [None] stands for NaN.  The result is kept as the
    mathematical integer: the service only compares it with [2^30], and
    rounding to a double is monotone and fixes [2^30] and [2^30 + 1], so the
    comparison has the same outcome on the exact value. *)
Definition parseInt (s : string) : option Z :=
  let t := trimStart s in
  let '(sign, t) :=
    match t with
    | String "-"%char r => ((-1)%Z, r)
    | String "+"%char r => (1%Z, r)
    | _ => (1%Z, t)
    end in
  match readDigits t 0 0 with
  | (_, O) => None
  | (v, S _) => Some (sign * v)%Z
  end.

End JsString.

(** ** Completions

    A JavaScript evaluation either completes normally with a value or throws.
    [try_catch] is the [try { ... } catch (err) { ... }] statement. *)

Record JsError := mkError { err_name : string; err_message : string }.

Inductive completion (A : Type) : Type :=
  | Normal (a : A)
  | Throw (e : JsError).
Arguments Normal {A} a.
Arguments Throw {A} e.

#[global] Instance completion_ret : MRet completion := @Normal.
#[global] Instance completion_bind : MBind completion := λ A B f c,
  match c with
  | Normal a => f a
  | Throw e => Throw e
  end.
#[global] Instance completion_throw : MThrow JsError completion := @Throw.

Definition try_catch {A} (body : completion A) (handler : JsError → completion A)
  : completion A :=
  match body with
  | Normal a => Normal a
  | Throw e => handler e
  end.

(** ** The platform URL class

    [new URL(s)], [url.searchParams.delete(name)] and [url.toString()] belong
    to the runtime, not to the service.  They are taken as an interface:
    [URL_parse] is the constructor ([None] when it throws its [TypeError]),
    [URL_searchParams] the list of name-value pairs of the query, and the
    mutation done by [delete] is passed explicitly. *)

Class URLOps := {
  URLobj : Type;
  URL_parse : string → option URLobj;
  URL_searchParams : URLobj → list (string * string);
  URL_searchParams_delete : string → URLobj → URLobj;
  URL_toString : URLobj → string
}.

(** The URL objects a program can hold: built by the constructor, then
    changed through [searchParams.delete]. *)
Inductive URL_reachable {url : URLOps} : URLobj → Prop :=
  | reachable_parse input o :
      URL_parse input = Some o → URL_reachable o
  | reachable_delete name o :
      URL_reachable o → URL_reachable (URL_searchParams_delete name o).

(** What the service relies on from the URL Standard: a serialised URL parses
    back to the same URL; [delete] removes exactly the pairs with the given
    name, and deleting is idempotent and independent of the order of names. *)
Class URLLaws {url : URLOps} : Prop := {
  URL_reparse o :
    URL_reachable o → URL_parse (URL_toString o) = Some o;
  URL_delete_pairs name o :
    URL_searchParams (URL_searchParams_delete name o)
    = filter (λ kv, kv.1 ≠ name) (URL_searchParams o);
  URL_delete_idemp name o :
    URL_searchParams_delete name (URL_searchParams_delete name o)
    = URL_searchParams_delete name o;
  URL_delete_comm name1 name2 o :
    URL_searchParams_delete name1 (URL_searchParams_delete name2 o)
    = URL_searchParams_delete name2 (URL_searchParams_delete name1 o)
}.

(** ** URL normalisation *)

Section Normalizer.
Context {url : URLOps}.

Definition new_URL (input : string) : completion URLobj :=
  match URL_parse input with
  | Some o => Normal o
  | None => Throw (mkError "TypeError" "Invalid URL")
  end.

Definition paramsToRemove : list string :=
  [ "utm_source"; "utm_medium"; "utm_campaign"; "utm_term"; "utm_content";
    "gclid"; "dclid"; "fbclid"; "msclkid"; "yclid" ].

(** [paramsToRemove.forEach(param => urlObj.searchParams.delete(param))] *)
Definition deleteParams (names : list string) (urlObj : URLobj) : URLobj :=
  foldl (λ o param, URL_searchParams_delete param o) urlObj names.

Definition normalizeUrl (inputUrl : string) : completion string :=
  try_catch
    (urlObj ← new_URL inputUrl;
     let urlObj := deleteParams paramsToRemove urlObj in
     mret (URL_toString urlObj))
    (λ err, mret inputUrl).

End Normalizer.

(** ** World, externals and the handler monad *)

(** The part of the world the handler acts on: files by path, directories,
    the number of open browser pages, and what was sent to [console.error]. *)
Record World := mkWorld {
  files : gmap string string;
  dirs : gset string;
  open_pages : nat;
  console : list JsError
}.

(** The response object of a navigation: its headers (names in lower case, as
    the browser engine delivers them) and the outcome of [response.body()]. *)
Record Response := mkResponse {
  response_headers : gmap string string;
  response_body : completion string
}.

(** Outcomes of the calls that leave the service during one request.
    [ext_goto] carries [None] when [page.goto] resolves to [null]. *)
Record Externals := mkExternals {
  ext_mkdir : completion ();
  ext_newPage : completion ();
  ext_goto : completion (option Response);
  ext_content : completion string;
  ext_pdf : completion string;
  ext_screenshot : completion string;
  ext_writeFile : string → completion ();
  ext_close : completion ()
}.

Definition M (A : Type) : Type := World → completion A * World.

#[global] Instance M_ret : MRet M := λ A a w, (Normal a, w).
#[global] Instance M_bind : MBind M := λ A B f m w,
  match m w with
  | (Normal a, w') => f a w'
  | (Throw e, w') => (Throw e, w')
  end.
#[global] Instance M_throw : MThrow JsError M := λ A e w, (Throw e, w).

Definition lift {A} (c : completion A) : M A := λ w, (c, w).

Definition try_catch_M {A} (body : M A) (handler : JsError → M A) : M A := λ w,
  match body w with
  | (Normal a, w') => (Normal a, w')
  | (Throw e, w') => handler e w'
  end.

(** An effect that happens only when the external call succeeds. *)
Definition effect {A} (c : completion A) (f : A → World → World) : M A := λ w,
  match c with
  | Normal a => (Normal a, f a w)
  | Throw e => (Throw e, w)
  end.

Definition set_files (f : gmap string string → gmap string string) (w : World) : World :=
  mkWorld (f (files w)) (dirs w) (open_pages w) (console w).
Definition set_dirs (f : gset string → gset string) (w : World) : World :=
  mkWorld (files w) (f (dirs w)) (open_pages w) (console w).
Definition set_open_pages (f : nat → nat) (w : World) : World :=
  mkWorld (files w) (dirs w) (f (open_pages w)) (console w).
Definition set_console (f : list JsError → list JsError) (w : World) : World :=
  mkWorld (files w) (dirs w) (open_pages w) (f (console w)).

(** The ancestors of a path whose components are separated by [/]: the part
    of the path before each separator, the root for a leading separator.
    [seen] is the part already read. *)
Fixpoint ancestorsFrom (seen rest : string) : list string :=
  match rest with
  | EmptyString => []
  | String c rest' =>
      (if Ascii.eqb c "/"
       then [if JsString.truthy seen then seen else "/"]
       else [])
      ++ ancestorsFrom (seen +:+ String c EmptyString) rest'
  end.

Definition ancestors (path : string) : list string := ancestorsFrom "" path.

(** The directories that exist once [dir] has been created with
    [{ recursive: true }]: [dir] itself, its ancestors, those from before. *)
Definition createdBy (dir : string) (d : gset string) : gset string :=
  {[dir]} ∪ list_to_set (ancestors dir) ∪ d.

(** [fs.mkdirSync(dir, { recursive: true })] *)
Definition mkdirSync (ext : Externals) (dir : string) : M () :=
  effect (ext_mkdir ext) (λ _, set_dirs (createdBy dir)).

(** [fs.writeFileSync(file, data)] *)
Definition writeFileSync (ext : Externals) (file data : string) : M () :=
  effect (ext_writeFile ext file) (λ _, set_files <[file := data]>).

(** [browser.newPage()] *)
Definition newPage (ext : Externals) : M () :=
  effect (ext_newPage ext) (λ _, set_open_pages S).

(** [page.goto(url, { waitUntil: 'networkidle' })] *)
Definition page_goto (ext : Externals) (url : string) : M (option Response) :=
  lift (ext_goto ext).

(** [page.content()] *)
Definition page_content (ext : Externals) : M string :=
  lift (ext_content ext).

(** [page.pdf({ path, format: 'A4' })]: the engine writes the file. *)
Definition page_pdf (ext : Externals) (file : string) : M () :=
  effect (ext_pdf ext) (λ data, set_files <[file := data]>);; mret ().

(** [page.screenshot({ path, fullPage: true })] *)
Definition page_screenshot (ext : Externals) (file : string) : M () :=
  effect (ext_screenshot ext) (λ data, set_files <[file := data]>);; mret ().

(** [page.close()] *)
Definition page_close (ext : Externals) : M () :=
  effect (ext_close ext) (λ _, set_open_pages pred).

(** [console.error(err)] *)
Definition console_error (err : JsError) : M () :=
  λ w, (Normal (), set_console (λ c, c ++ [err]) w).

(** [path.join(a, b)] for components that need no normalisation: an absolute
    directory and a file name without separators. *)
Definition path_join (a b : string) : string := a +:+ "/" +:+ b.

(** ** Configuration constants *)

Definition FILE_SIZE_LIMIT : Z := 1073741824.
Definition PARALLEL_LIMIT : nat := 5.

(** ** Size guard and format dispatch *)

(** [contentLengthHeader && parseInt(contentLengthHeader, 10) > FILE_SIZE_LIMIT];
    an absent header is [undefined], and a comparison with NaN is false. *)
Definition sizeExceeded (contentLengthHeader : option string) : bool :=
  match contentLengthHeader with
  | None => false
  | Some s =>
      JsString.truthy s &&
      match JsString.parseInt s with
      | Some n => bool_decide (FILE_SIZE_LIMIT < n)%Z
      | None => false
      end
  end.

Inductive Category :=
  | CatHtml | CatPdf | CatImage | CatVideo | CatCsv
  | CatExcel | CatWord | CatZip | CatFallback.

(** The conditions of the [if] / [else if] chain, in source order. *)
Definition dispatch (contentType : string) : Category :=
  if JsString.includes contentType "text/html" then CatHtml
  else if JsString.includes contentType "application/pdf" then CatPdf
  else if JsString.startsWith contentType "image/" then CatImage
  else if JsString.startsWith contentType "video/" then CatVideo
  else if JsString.includes contentType "text/csv" then CatCsv
  else if JsString.includes contentType "application/vnd.ms-excel" ||
          JsString.includes contentType
            "application/vnd.openxmlformats-officedocument.spreadsheetml.sheet"
       then CatExcel
  else if JsString.includes contentType "application/msword" ||
          JsString.includes contentType
            "application/vnd.openxmlformats-officedocument.wordprocessingml.document"
       then CatWord
  else if JsString.includes contentType "application/zip" then CatZip
  else CatFallback.

Definition imageExt (contentType : string) : string :=
  if JsString.includes contentType "jpeg" then "jpg"
  else if JsString.includes contentType "gif" then "gif"
  else "png".

(** [contentType.split('/')[1] || 'mp4'] *)
Definition videoExt (contentType : string) : string :=
  match JsString.split contentType "/" !! 1%nat with
  | Some e => if JsString.truthy e then e else "mp4"
  | None => "mp4"
  end.

Definition excelExt (contentType : string) : string :=
  if JsString.includes contentType "openxmlformats-officedocument.spreadsheetml.sheet"
  then "xlsx" else "xls".

Definition wordExt (contentType : string) : string :=
  if JsString.includes contentType
       "openxmlformats-officedocument.wordprocessingml.document"
  then "docx" else "doc".

(** ** One fetch/render/save session *)

(** [new Error('File size exceeds 1GB, not saving.')] *)
Definition sizeError : JsError :=
  mkError "Error" "File size exceeds 1GB, not saving.".

Section Session.
Variable ext : Externals.
Variables normalizedUrl hash archiveSubDir baseUrl : string.

(** The branches that store the raw body: read it, write
    [<hash>.<extension>], record the public URL under [file]. *)
Definition saveBody (response : Response) (extension : string)
    (savedFiles : gmap string string) : M (gmap string string) :=
  buffer ← lift (response_body response);
  let fileName := hash +:+ "." +:+ extension in
  writeFileSync ext (path_join archiveSubDir fileName) buffer;;
  mret (<["file" := baseUrl +:+ "/" +:+ fileName]> savedFiles).

(** The fallback branch, and the first step of the HTML branch. *)
Definition saveMarkup (savedFiles : gmap string string) : M (gmap string string) :=
  htmlContent ← page_content ext;
  let htmlFileName := hash +:+ ".html" in
  writeFileSync ext (path_join archiveSubDir htmlFileName) htmlContent;;
  mret (<["html" := baseUrl +:+ "/" +:+ htmlFileName]> savedFiles).

Definition saveHtml (savedFiles : gmap string string) : M (gmap string string) :=
  savedFiles ← saveMarkup savedFiles;
  let pdfFileName := hash +:+ ".pdf" in
  page_pdf ext (path_join archiveSubDir pdfFileName);;
  let savedFiles := <["pdf" := baseUrl +:+ "/" +:+ pdfFileName]> savedFiles in
  let screenshotFileName := hash +:+ ".png" in
  page_screenshot ext (path_join archiveSubDir screenshotFileName);;
  mret (<["screenshot" := baseUrl +:+ "/" +:+ screenshotFileName]> savedFiles).

Definition runSaver (response : Response) (contentType : string)
    (savedFiles : gmap string string) : M (gmap string string) :=
  match dispatch contentType with
  | CatHtml => saveHtml savedFiles
  | CatPdf => saveBody response "pdf" savedFiles
  | CatImage => saveBody response (imageExt contentType) savedFiles
  | CatVideo => saveBody response (videoExt contentType) savedFiles
  | CatCsv => saveBody response "csv" savedFiles
  | CatExcel => saveBody response (excelExt contentType) savedFiles
  | CatWord => saveBody response (wordExt contentType) savedFiles
  | CatZip => saveBody response "zip" savedFiles
  | CatFallback => saveMarkup savedFiles
  end.

(** The callback up to, not including, [page.close()]; its value is the
    local variable [savedFiles]. *)
Definition sessionSteps : M (gmap string string) :=
  newPage ext;;
  response ← page_goto ext normalizedUrl;
  match response with
  | None =>
      mthrow (mkError "TypeError"
                "Cannot read properties of null (reading 'headers')")
  | Some response =>
      let contentLengthHeader := response_headers response !! "content-length" in
      (if sizeExceeded contentLengthHeader
       then mthrow sizeError
       else mret ());;
      let contentType := default "" (response_headers response !! "content-type") in
      runSaver response contentType ∅
  end.

(** The callback handed to [limit]: it has no [return], so [savedFiles] does
    not leave it. *)
Definition session : M () :=
  sessionSteps;; page_close ext.

End Session.

(** ** The archive endpoint *)

Record Request := mkRequest {
  query_url : option string;
  req_protocol : string;
  req_host : string
}.

Inductive JsValue :=
  | VUndefined
  | VString (s : string)
  | VObject (fields : gmap string string)
  | VOpaque.

Record HttpResponse := mkHttpResponse {
  status : nat;
  json : JsValue
}.

(** Identifier resolution along a scope chain, innermost scope first: an
    identifier bound nowhere throws a [ReferenceError]. *)
Fixpoint lookupBinding (name : string) (scope : list (string * JsValue))
  : option JsValue :=
  match scope with
  | [] => None
  | (x, v) :: scope' => if String.eqb x name then Some v else lookupBinding name scope'
  end.

Definition resolveBinding (name : string) (scope : list (string * JsValue))
  : completion JsValue :=
  match lookupBinding name scope with
  | Some v => Normal v
  | None => Throw (mkError "ReferenceError" (name +:+ " is not defined"))
  end.

(** The error of resolving [savedFiles] where no scope binds it. *)
Definition referenceError : JsError :=
  mkError "ReferenceError" "savedFiles is not defined".

(** Top-level bindings of the module: imports, constants, functions. *)
Definition moduleScope : list (string * JsValue) :=
  (λ x, (x, VOpaque)) <$>
    [ "path"; "fileURLToPath"; "__filename"; "__dirname"; "PORT"; "ARCHIVE_DIR";
      "FILE_SIZE_LIMIT"; "PARALLEL_LIMIT"; "express"; "fs"; "crypto"; "chromium";
      "pLimit"; "normalizeUrl"; "app"; "limit"; "browser"; "launchBrowser" ].

(** [limit(fn)] as one request sees it: once let in, [fn] runs, and the
    promise returned by [limit] settles as [fn] does. *)
Definition limit {A} (fn : M A) : M A := fn.

Section Endpoint.
Context {url : URLOps}.
(** [crypto.createHash('sha1').update(s).digest('hex')] *)
Variable sha1_hex : string → string.
(** [path.join(__dirname, 'archive')] *)
Variable ARCHIVE_DIR : string.

(** Bindings visible in the body of the handler, outside the callback: the
    parameters and the five [const] declarations, then the module. *)
Definition handlerScope (originalUrl normalizedUrl hash archiveSubDir baseUrl : string)
  : list (string * JsValue) :=
  [ ("baseUrl", VString baseUrl); ("archiveSubDir", VString archiveSubDir);
    ("hash", VString hash); ("normalizedUrl", VString normalizedUrl);
    ("originalUrl", VString originalUrl); ("req", VOpaque); ("res", VOpaque) ]
  ++ moduleScope.

(** [err.message || 'Archiving failed.'] *)
Definition errorBody (err : JsError) : JsValue :=
  VObject {[ "error" :=
    if JsString.truthy (err_message err) then err_message err
    else "Archiving failed." ]}.

(** The handler from the normalisation on, for a truthy [req.query.url]. *)
Definition archive (ext : Externals) (req : Request) (originalUrl : string)
  : M HttpResponse :=
  normalizedUrl ← lift (normalizeUrl originalUrl);
  let hash := sha1_hex normalizedUrl in
  let archiveSubDir := path_join ARCHIVE_DIR hash in
  mkdirSync ext archiveSubDir;;
  let baseUrl :=
    req_protocol req +:+ "://" +:+ req_host req +:+ "/files/" +:+ hash in
  try_catch_M
    (limit (session ext normalizedUrl hash archiveSubDir baseUrl);;
     savedFiles ← lift (resolveBinding "savedFiles"
                          (handlerScope originalUrl normalizedUrl hash
                             archiveSubDir baseUrl));
     mret (mkHttpResponse 200 savedFiles))
    (λ err,
       console_error err;;
       mret (mkHttpResponse 500 (errorBody err))).

(** [app.get('/archive', async (req, res) => ...)].  The result is the
    response sent, or [None] when the handler's promise rejects before any
    response is sent. *)
Definition archiveHandler (ext : Externals) (req : Request) (w : World)
  : option HttpResponse * World :=
  match query_url req with
  | Some originalUrl =>
      if JsString.truthy originalUrl then
        match archive ext req originalUrl w with
        | (Normal r, w') => (Some r, w')
        | (Throw _, w') => (None, w')
        end
      else
        (Some (mkHttpResponse 400
                 (VObject {[ "error" := "URL is required as a query parameter." ]})), w)
  | None =>
      (Some (mkHttpResponse 400
               (VObject {[ "error" := "URL is required as a query parameter." ]})), w)
  end.

End Endpoint.

(** ** The concurrency gate *)

(** Modelled from the spec: the gate built by [pLimit(PARALLEL_LIMIT)].  The
    package p-limit is a dependency whose code is not among the sources; the
    gate below follows the description of the Concurrency Gate: a fixed
    capacity, first-in first-out queueing at capacity, and release of the slot
    when the guarded block completes or raises. *)
Module Gate.

Record state := mkState {
  running : list nat;
  waiting : list nat
}.

Definition init : state := mkState [] [].

Inductive outcome := Completed | Raised.

Inductive event :=
  | Arrive (id : nat)
  | Settle (id : nat) (o : outcome).

Fixpoint removeFirst (id : nat) (l : list nat) : list nat :=
  match l with
  | [] => []
  | x :: l' => if bool_decide (x = id) then l' else x :: removeFirst id l'
  end.

(** Modelled from the spec: admission by p-limit, whose code is missing.  The
    oldest waiting session starts if a slot is free. *)
Definition startNext (capacity : nat) (s : state) : state :=
  match waiting s with
  | [] => s
  | id :: rest =>
      if bool_decide (length (running s) < capacity)
      then mkState (running s ++ [id]) rest
      else s
  end.

(** Modelled from the spec: the transitions of the p-limit gate, whose code
    is missing.  An arriving request queues and starts if the gate is below
    capacity; a running session that settles, by completing or by raising,
    gives up its slot, which the head of the queue takes. *)
Definition step (capacity : nat) (s : state) (e : event) : state :=
  match e with
  | Arrive id => startNext capacity (mkState (running s) (waiting s ++ [id]))
  | Settle id _ =>
      if bool_decide (id ∈ running s)
      then startNext capacity (mkState (removeFirst id (running s)) (waiting s))
      else s
  end.

Definition run (capacity : nat) (trace : list event) : state :=
  foldl (step capacity) init trace.

(** No more sessions run than the gate has slots. *)
Definition bounded (capacity : nat) (s : state) : Prop :=
  length (running s) ≤ capacity.

End Gate.

(** ** A small URL class

    A reference implementation of the URL interface, used to run the
    normaliser on concrete inputs: a URL is a prefix containing a colon,
    followed by an optional query of [name=value] pairs separated by [&].
    There is no percent-encoding and no fragment. *)
Module QueryURL.

Record t := mk {
  prefix : string;
  pairs : list (string * string)
}.

(** Split at the first occurrence of [c]. *)
Fixpoint cut (s : string) (c : Ascii.ascii) : string * option string :=
  match s with
  | EmptyString => (EmptyString, None)
  | String a s' =>
      if Ascii.eqb a c then (EmptyString, Some s')
      else let '(l, r) := cut s' c in (String a l, r)
  end.

Definition parsePair (item : string) : string * string :=
  let '(k, v) := cut item "=" in (k, default "" v).

Definition parseQuery (q : string) : list (string * string) :=
  parsePair <$> filter (λ item, item ≠ "") (JsString.split q "&").

Definition parse (input : string) : option t :=
  let '(p, q) := cut input "?" in
  if JsString.includes p ":" then Some (mk p (parseQuery (default "" q)))
  else None.

Definition printPair (kv : string * string) : string :=
  kv.1 +:+ "=" +:+ kv.2.

Fixpoint join (items : list string) : string :=
  match items with
  | [] => ""
  | [x] => x
  | x :: xs => x +:+ "&" +:+ join xs
  end.

Definition toString (u : t) : string :=
  match pairs u with
  | [] => prefix u
  | ps => prefix u +:+ "?" +:+ join (printPair <$> ps)
  end.

Definition delete (name : string) (u : t) : t :=
  mk (prefix u) (filter (λ kv, kv.1 ≠ name) (pairs u)).

Fixpoint occurs (c : Ascii.ascii) (s : string) : bool :=
  match s with
  | EmptyString => false
  | String a s' => Ascii.eqb a c || occurs c s'
  end.

(** A pair none of whose parts holds a delimiter that would end it. *)
Definition cleanPair (kv : string * string) : Prop :=
  occurs "&" kv.1 = false ∧ occurs "=" kv.1 = false ∧ occurs "&" kv.2 = false.

(** The shape of the URLs that [parse] builds: the prefix holds a colon and
    no question mark, and every pair is clean. *)
Definition wellFormed (u : t) : Prop :=
  JsString.includes (prefix u) ":" = true ∧
  occurs "?" (prefix u) = false ∧
  Forall cleanPair (pairs u).

#[global] Instance ops : URLOps := {|
  URLobj := t;
  URL_parse := parse;
  URL_searchParams := pairs;
  URL_searchParams_delete := delete;
  URL_toString := toString
|}.

End QueryURL.

(** ** Definitions used to state the properties *)

(** The dispatch table as the design describes it: an ordered list of
    categories, each with its test on the content type; the first entry whose
    test holds is selected, the fallback when none does. *)
Definition categoryTable : list (Category * (string → bool)) :=
  [ (CatHtml, λ ct, JsString.includes ct "text/html");
    (CatPdf, λ ct, JsString.includes ct "application/pdf");
    (CatImage, λ ct, JsString.startsWith ct "image/");
    (CatVideo, λ ct, JsString.startsWith ct "video/");
    (CatCsv, λ ct, JsString.includes ct "text/csv");
    (CatExcel, λ ct,
       JsString.includes ct "application/vnd.ms-excel" ||
       JsString.includes ct
         "application/vnd.openxmlformats-officedocument.spreadsheetml.sheet");
    (CatWord, λ ct,
       JsString.includes ct "application/msword" ||
       JsString.includes ct
         "application/vnd.openxmlformats-officedocument.wordprocessingml.document");
    (CatZip, λ ct, JsString.includes ct "application/zip") ].

Fixpoint firstMatch (table : list (Category * (string → bool))) (contentType : string)
  : Category :=
  match table with
  | [] => CatFallback
  | (cat, test) :: table' =>
      if test contentType then cat else firstMatch table' contentType
  end.

Definition isLowercase (c : Ascii.ascii) : bool :=
  let n := Ascii.nat_of_ascii c in
  bool_decide (97 ≤ n ≤ 122).

(** No letter [a]..[z] occurs in the string. *)
Fixpoint noLowercase (s : string) : bool :=
  match s with
  | EmptyString => true
  | String c s' => negb (isLowercase c) && noLowercase s'
  end.

(** The same response with the [content-length] header left out. *)
Definition withoutContentLength (r : Response) : Response :=
  mkResponse (delete "content-length" (response_headers r)) (response_body r).

(** The same externals with another outcome of the navigation. *)
Definition withGoto (ext : Externals) (r : completion (option Response)) : Externals :=
  mkExternals (ext_mkdir ext) (ext_newPage ext) r (ext_content ext) (ext_pdf ext)
    (ext_screenshot ext) (ext_writeFile ext) (ext_close ext).

(** A computation that neither opens nor closes a page. *)
Definition keepsPages {A} (m : M A) : Prop :=
  ∀ w, open_pages (m w).2 = open_pages w.

(** Where an artifact is stored and under which URL it is published. *)
Definition artifactPath (archiveSubDir hash extension : string) : string :=
  path_join archiveSubDir (hash +:+ "." +:+ extension).
Definition publicUrl (baseUrl hash extension : string) : string :=
  baseUrl +:+ "/" +:+ hash +:+ "." +:+ extension.

(** A session that completed normally and stored exactly the listed
    artifacts, oldest first, each given by its kind, its extension and the
    data written: the record holds one entry per artifact, and the files are
    those from before with one file per artifact. *)
Definition storedExactly (archiveSubDir hash baseUrl : string) (w : World)
    (outcome : completion (gmap string string) * World)
    (artifacts : list (string * string * string)) : Prop :=
  ∃ saved,
    outcome.1 = Normal saved ∧
    size saved = length artifacts ∧
    saved = foldl (λ m a, <[a.1.1 := publicUrl baseUrl hash a.1.2]> m) ∅ artifacts ∧
    files outcome.2
    = foldl (λ m a, <[artifactPath archiveSubDir hash a.1.2 := a.2]> m)
        (files w) artifacts.

(** Navigation yields [response] and every later external call succeeds,
    with the given results. *)
Record Succeeds (ext : Externals) (response : Response)
    (htmlContent pdfData pngData buffer : string) : Prop := {
  ok_newPage : ext_newPage ext = Normal ();
  ok_goto : ext_goto ext = Normal (Some response);
  ok_content : ext_content ext = Normal htmlContent;
  ok_pdf : ext_pdf ext = Normal pdfData;
  ok_screenshot : ext_screenshot ext = Normal pngData;
  ok_body : response_body response = Normal buffer;
  ok_writeFile : ∀ file, ext_writeFile ext file = Normal ();
  ok_close : ext_close ext = Normal ()
}.

(** ** Sample inputs *)

Module Sample.

Definition world : World := mkWorld ∅ ∅ 0 [].

(** Stand-in for the digest: any function of the normalised URL will do. *)
Definition digest (s : string) : string := "da39a3ee".

Definition archiveDir : string := "/srv/archive".

Definition request (url : string) : Request :=
  mkRequest (Some url) "http" "localhost:3000".

Definition respond (contentType : string) : Response :=
  mkResponse {[ "content-type" := contentType ]} (Normal "raw-body").

Definition respondSized (contentType contentLength : string) : Response :=
  mkResponse {[ "content-type" := contentType; "content-length" := contentLength ]}
    (Normal "raw-body").

(** Every external call succeeds. *)
Definition allGood (r : Response) : Externals :=
  mkExternals (Normal ()) (Normal ()) (Normal (Some r)) (Normal "<html></html>")
    (Normal "%PDF-1.4") (Normal "PNG") (λ _, Normal ()) (Normal ()).

End Sample.

(** ** Further definitions: writes, requests, start-up, the page of the UI *)


(** A list of file writes, oldest first, applied to a file map. *)
Definition applyWrites (writes : list (string * string)) (fs : gmap string string)
  : gmap string string :=
  foldl (λ m pd, <[pd.1 := pd.2]> m) fs writes.

(** All that [m] does to the files is at most [bound] writes, each to a path
    satisfying [P]. *)
Definition writesWithin {A} (P : string → Prop) (bound : nat) (m : M A) : Prop :=
  ∀ w, ∃ writes,
    files (m w).2 = applyWrites writes (files w) ∧
    length writes ≤ bound ∧
    Forall (λ pd, P pd.1) writes.

(** A computation that leaves one component of the world as it was. *)
Definition preserves {A B} (component : World → B) (m : M A) : Prop :=
  ∀ w, component (m w).2 = component w.

(** The answer to a request without a usable [url] parameter. *)
Definition badRequest : HttpResponse :=
  mkHttpResponse 400 (VObject {[ "error" := "URL is required as a query parameter." ]}).

(** A file of the hash directory: [<archiveSubDir>/<hash>.<extension>], the
    extension holding no path separator. *)
Definition isArtifact (archiveSubDir hash path : string) : Prop :=
  ∃ extension,
    path = artifactPath archiveSubDir hash extension ∧
    JsString.includes extension "/" = false.

(** Only decimal digits occur in the string. *)
Fixpoint isDigits (s : string) : bool :=
  match s with
  | EmptyString => true
  | String c s' =>
      match JsString.digitValue c with
      | Some _ => isDigits s'
      | None => false
      end
  end.

(** *** Start-up of the process *)










(** *** The submit handler of [index.html] *)

(** What the page puts into its result element: plain text, or the block
    with the pretty-printed JSON data. *)
Inductive Display :=
  | ShowText (text : string)
  | ShowJson (data : gmap string string).

(** [response.ok] *)
Definition response_ok (statusCode : nat) : bool :=
  bool_decide (200 ≤ statusCode ≤ 299).

(** The body of the [try] once [fetch] and [response.json()] have resolved
    to a status and a JSON object with string members. *)
Definition showResult (statusCode : nat) (data : gmap string string) : Display :=
  if response_ok statusCode then ShowJson data
  else
    ShowText
      match data !! "error" with
      | Some message =>
          if JsString.truthy message then message else "An error occurred."
      | None => "An error occurred."
      end.

(** The submit handler from the resolution of [fetch] on; a rejected
    [fetch] or [response.json()] reaches the [catch]. *)
Definition onSubmit (fetched : completion (nat * gmap string string)) : Display :=
  match fetched with
  | Normal (statusCode, data) => showResult statusCode data
  | Throw error => ShowText ("Error: " +:+ err_message error)
  end.

(** What the page receives for a response of the archive endpoint. *)
Definition fetchedFrom (r : HttpResponse) : completion (nat * gmap string string) :=
  match json r with
  | VObject fields => Normal (status r, fields)
  | _ => Throw (mkError "SyntaxError" "Unexpected token in JSON")
  end.

(** *** Externals with a failing step *)

Module Scenario.

Definition failure (message : string) : JsError := mkError "Error" message.

(** Navigation fails. *)
Definition gotoFails (e : JsError) : Externals :=
  mkExternals (Normal ()) (Normal ()) (Throw e) (Normal "<html></html>")
    (Normal "%PDF-1.4") (Normal "PNG") (λ _, Normal ()) (Normal ()).

(** Everything succeeds up to [page.pdf], which fails. *)
Definition pdfFails (r : Response) (e : JsError) : Externals :=
  mkExternals (Normal ()) (Normal ()) (Normal (Some r)) (Normal "<html></html>")
    (Throw e) (Normal "PNG") (λ _, Normal ()) (Normal ()).

(** The hash directory cannot be created. *)
Definition mkdirFails (r : Response) (e : JsError) : Externals :=
  mkExternals (Throw e) (Normal ()) (Normal (Some r)) (Normal "<html></html>")
    (Normal "%PDF-1.4") (Normal "PNG") (λ _, Normal ()) (Normal ()).

End Scenario.

(** * Properties *)

(** ** The definitions on small inputs *)

Example parseInt_plain : JsString.parseInt "2048" = Some 2048%Z.
Proof. reflexivity. Qed.
Example parseInt_trailing : JsString.parseInt "  12px" = Some 12%Z.
Proof. reflexivity. Qed.
Example parseInt_negative : JsString.parseInt "-7" = Some (-7)%Z.
Proof. reflexivity. Qed.
Example parseInt_nan : JsString.parseInt "abc" = None.
Proof. reflexivity. Qed.
Example parseInt_empty : JsString.parseInt "" = None.
Proof. reflexivity. Qed.
Example split_video : JsString.split "video/mp4" "/" = ["video"; "mp4"].
Proof. reflexivity. Qed.
Example includes_html :
  JsString.includes "text/html; charset=utf-8" "text/html" = true.
Proof. reflexivity. Qed.
Example sizeExceeded_limit : sizeExceeded (Some "1073741824") = false.
Proof. reflexivity. Qed.
Example sizeExceeded_above_limit : sizeExceeded (Some "1073741825") = true.
Proof. reflexivity. Qed.
Example sizeExceeded_absent : sizeExceeded None = false.
Proof. reflexivity. Qed.
Example videoExt_webm : videoExt "video/webm" = "webm".
Proof. reflexivity. Qed.
Example videoExt_default : videoExt "video/" = "mp4".
Proof. reflexivity. Qed.
Example dispatch_table_rows :
  dispatch "text/html; charset=utf-8" = CatHtml ∧
  dispatch "application/pdf" = CatPdf ∧
  dispatch "image/gif" = CatImage ∧
  dispatch "video/mp4" = CatVideo ∧
  dispatch "text/csv" = CatCsv ∧
  dispatch "application/vnd.ms-excel" = CatExcel ∧
  dispatch "application/msword" = CatWord ∧
  dispatch "application/zip" = CatZip ∧
  dispatch "application/octet-stream" = CatFallback.
Proof. repeat split. Qed.
Example normalizeUrl_tracking :
  normalizeUrl (url := QueryURL.ops) "https://ex.com/?utm_source=x&id=1"
  = Normal "https://ex.com/?id=1".
Proof. reflexivity. Qed.
Example normalizeUrl_all_removed :
  normalizeUrl (url := QueryURL.ops) "https://ex.com/?utm_source=x&gclid=1"
  = Normal "https://ex.com/".
Proof. reflexivity. Qed.
Example ancestors_of_hash_directory :
  ancestors "/srv/archive/da39a3ee" = ["/"; "/srv"; "/srv/archive"].
Proof. reflexivity. Qed.
Example ancestors_relative : ancestors "archive/da39a3ee" = ["archive"].
Proof. reflexivity. Qed.
Example gate_six_arrivals :
  Gate.run PARALLEL_LIMIT
    [Gate.Arrive 1; Gate.Arrive 2; Gate.Arrive 3; Gate.Arrive 4; Gate.Arrive 5;
     Gate.Arrive 6]
  = Gate.mkState [1; 2; 3; 4; 5] [6].
Proof. reflexivity. Qed.

(** ** Strings *)

Module QueryURLFacts.
Import QueryURL.

Lemma cut_fst_clean s c : occurs c (cut s c).1 = false.
Proof.
  induction s as [|a s IH]; simpl; [done|].
  destruct (Ascii.eqb a c) eqn:E; simpl; [done|].
  destruct (cut s c) as [l r]; simpl in *. by rewrite E.
Qed.

Lemma cut_none s c : occurs c s = false → cut s c = (s, None).
Proof.
  induction s as [|a s IH]; simpl; [done|].
  intros [Ha Hs]%orb_false_elim. rewrite Ha, (IH Hs). done.
Qed.

Lemma cut_append a b c :
  occurs c a = false → cut (a +:+ String c b) c = (a, Some b).
Proof.
  induction a as [|x a IH]; simpl.
  - intros _. by rewrite Ascii.eqb_refl.
  - intros [Hx Ha]%orb_false_elim. rewrite Hx, (IH Ha). done.
Qed.

(** Cutting at [c] introduces no occurrence of another character [d]. *)
Lemma cut_keeps_clean s c d :
  occurs d s = false →
  occurs d (cut s c).1 = false ∧ occurs d (default "" (cut s c).2) = false.
Proof.
  induction s as [|a s IH]; simpl; [done|].
  intros [Ha Hs]%orb_false_elim.
  destruct (Ascii.eqb a c); simpl; [done|].
  destruct (IH Hs) as [H1 H2].
  destruct (cut s c) as [l r]; simpl in *. by rewrite Ha.
Qed.

Lemma split_clean s c : Forall (λ x, occurs c x = false) (JsString.split s c).
Proof.
  induction s as [|a s IH]; simpl.
  - by constructor.
  - destruct (Ascii.eqb a c) eqn:E.
    + by constructor.
    + destruct (JsString.split s c) as [|x xs].
      * constructor; [|done]. simpl. by rewrite E.
      * inversion IH; subst. constructor; [|done]. simpl. by rewrite E.
Qed.

Lemma split_clean_string s c :
  occurs c s = false → JsString.split s c = [s].
Proof.
  induction s as [|a s IH]; simpl; [done|].
  intros [Ha Hs]%orb_false_elim. by rewrite Ha, (IH Hs).
Qed.

Lemma split_append a b c :
  occurs c a = false →
  JsString.split (a +:+ String c b) c = a :: JsString.split b c.
Proof.
  induction a as [|x a IH]; simpl.
  - intros _. by rewrite Ascii.eqb_refl.
  - intros [Hx Ha]%orb_false_elim. by rewrite Hx, (IH Ha).
Qed.

Lemma split_join items :
  items ≠ [] →
  Forall (λ x, occurs "&" x = false) items →
  JsString.split (join items) "&" = items.
Proof.
  induction items as [|x [|y items] IH]; intros Hne Hall; [done| |].
  - simpl. inversion Hall; subst. by apply split_clean_string.
  - inversion Hall as [|? ? Hx Hrest]; subst.
    change (join (x :: y :: items)) with (x +:+ String "&" (join (y :: items))).
    rewrite (split_append _ _ _ Hx). f_equal. by apply IH.
Qed.

Lemma parsePair_printPair kv :
  occurs "=" kv.1 = false → parsePair (printPair kv) = kv.
Proof.
  destruct kv as [k v]; simpl. intros Hk.
  unfold parsePair, printPair; simpl.
  change ("=" +:+ v) with (String "=" v).
  by rewrite (cut_append _ _ _ Hk).
Qed.

Lemma printPair_nonempty kv : printPair kv ≠ "".
Proof.
  destruct kv as [k v]. unfold printPair; simpl.
  destruct k; simpl; discriminate.
Qed.

Lemma occurs_append c a b :
  occurs c (a +:+ b) = occurs c a || occurs c b.
Proof.
  induction a as [|x a IH]; simpl; [done|]. by rewrite IH, orb_assoc.
Qed.

Lemma parseQuery_join ps :
  Forall cleanPair ps → parseQuery (join (printPair <$> ps)) = ps.
Proof.
  intros Hall. unfold parseQuery.
  destruct ps as [|kv ps]; [done|].
  rewrite split_join.
  - induction Hall as [|x l Hx Hl IH]; [done|].
    rewrite fmap_cons, filter_cons_True by apply printPair_nonempty.
    rewrite fmap_cons, IH. f_equal. apply parsePair_printPair, Hx.
  - done.
  - apply Forall_fmap. eapply Forall_impl; [exact Hall|].
    intros [k v] (Hk & _ & Hv); simpl in *.
    unfold printPair; simpl.
    rewrite occurs_append, Hk. simpl. exact Hv.
Qed.

Lemma Forall_filter_keep {A} (P Q : A → Prop) `{!∀ x, Decision (P x)} l :
  Forall Q l → Forall Q (filter P l).
Proof.
  rewrite !Forall_forall. intros HQ x [_ Hx]%list_elem_of_filter. by apply HQ.
Qed.

Lemma parseQuery_clean q : Forall cleanPair (parseQuery q).
Proof.
  unfold parseQuery. apply Forall_fmap, Forall_filter_keep.
  eapply Forall_impl; [apply (split_clean q "&")|].
  intros item Hitem. unfold cleanPair, parsePair; simpl.
  pose proof (cut_keeps_clean item "=" "&" Hitem) as [H1 H2].
  pose proof (cut_fst_clean item "=") as H3.
  destruct (cut item "=") as [k v]; simpl in *. done.
Qed.

Lemma parse_wellFormed input u : parse input = Some u → wellFormed u.
Proof.
  unfold parse. pose proof (cut_fst_clean input "?") as Hp.
  destruct (cut input "?") as [p q]; simpl in *.
  destruct (JsString.includes p ":") eqn:Hcolon; [|done].
  intros [= <-]. repeat split; simpl; [done..|]. apply parseQuery_clean.
Qed.

Lemma delete_wellFormed name u : wellFormed u → wellFormed (delete name u).
Proof.
  intros (Hc & Hq & Hps). repeat split; simpl; [done..|].
  by apply Forall_filter_keep.
Qed.

Lemma parse_toString u : wellFormed u → parse (toString u) = Some u.
Proof.
  destruct u as [p ps]. intros (Hc & Hq & Hps); simpl in *.
  unfold parse, toString; simpl.
  destruct ps as [|kv ps].
  - rewrite (cut_none _ _ Hq). simpl. by rewrite Hc.
  - change (p +:+ "?" +:+ ?x) with (p +:+ String "?" x).
    rewrite (cut_append _ _ _ Hq). simpl. rewrite Hc.
    do 2 f_equal. by apply (parseQuery_join (kv :: ps)).
Qed.

Lemma reachable_wellFormed (u : @URLobj ops) : URL_reachable u → wellFormed u.
Proof.
  induction 1 as [input o Hparse | name o _ IH].
  - by eapply parse_wellFormed.
  - by apply delete_wellFormed.
Qed.

Lemma filter_name_twice name (ps : list (string * string)) :
  filter (λ kv, kv.1 ≠ name) (filter (λ kv, kv.1 ≠ name) ps)
  = filter (λ kv, kv.1 ≠ name) ps.
Proof. by apply list_filter_filter_l. Qed.

Lemma filter_name_swap name1 name2 (ps : list (string * string)) :
  filter (λ kv, kv.1 ≠ name1) (filter (λ kv, kv.1 ≠ name2) ps)
  = filter (λ kv, kv.1 ≠ name2) (filter (λ kv, kv.1 ≠ name1) ps).
Proof. rewrite !list_filter_filter. apply list_filter_iff. intros kv; tauto. Qed.

(** The reference implementation satisfies the laws of the interface. *)
#[global] Instance laws : URLLaws.
Proof.
  split.
  - intros o Hreach. apply parse_toString, reachable_wellFormed, Hreach.
  - done.
  - intros name [p ps]. unfold URL_searchParams_delete; simpl.
    unfold delete; simpl. f_equal. apply filter_name_twice.
  - intros name1 name2 [p ps]. unfold URL_searchParams_delete; simpl.
    unfold delete; simpl. f_equal. apply filter_name_swap.
Qed.

End QueryURLFacts.

(** ** URL normalisation *)

Section NormalizerFacts.
Context {url : URLOps}.

Lemma normalizeUrl_parsed inputUrl o :
  URL_parse inputUrl = Some o →
  normalizeUrl inputUrl = Normal (URL_toString (deleteParams paramsToRemove o)).
Proof. intros Hparse. unfold normalizeUrl, new_URL. by rewrite Hparse. Qed.

Lemma normalizeUrl_unparsed inputUrl :
  URL_parse inputUrl = None → normalizeUrl inputUrl = Normal inputUrl.
Proof. intros Hparse. unfold normalizeUrl, new_URL. by rewrite Hparse. Qed.

(** The normaliser never throws: the [catch] clause absorbs the only error. *)
Lemma normalizeUrl_returns inputUrl : ∃ v, normalizeUrl inputUrl = Normal v.
Proof.
  destruct (URL_parse inputUrl) as [o|] eqn:Hparse.
  - eexists. by apply normalizeUrl_parsed.
  - eexists. by apply normalizeUrl_unparsed.
Qed.

Lemma deleteParams_cons name names o :
  deleteParams (name :: names) o
  = deleteParams names (URL_searchParams_delete name o).
Proof. done. Qed.

Lemma deleteParams_reachable names o :
  URL_reachable o → URL_reachable (deleteParams names o).
Proof.
  revert o. induction names as [|name names IH]; intros o Ho; [done|].
  rewrite deleteParams_cons. apply IH. by constructor.
Qed.

Context {url_laws : URLLaws}.

Lemma deleteParams_delete name names o :
  URL_searchParams_delete name (deleteParams names o)
  = deleteParams names (URL_searchParams_delete name o).
Proof.
  revert o. induction names as [|n names IH]; intros o; [done|].
  rewrite !deleteParams_cons, IH. f_equal. apply URL_delete_comm.
Qed.

Lemma deleteParams_idemp names o :
  deleteParams names (deleteParams names o) = deleteParams names o.
Proof.
  revert o. induction names as [|n names IH]; intros o; [done|].
  rewrite !deleteParams_cons.
  rewrite deleteParams_delete, URL_delete_idemp. apply IH.
Qed.

Lemma deleteParams_pairs names o :
  URL_searchParams (deleteParams names o)
  = filter (λ kv, kv.1 ∉ names) (URL_searchParams o).
Proof.
  revert o. induction names as [|n names IH]; intros o.
  - simpl. induction (URL_searchParams o) as [|kv l IHl]; [done|].
    rewrite filter_cons_True by apply not_elem_of_nil. by f_equal.
  - rewrite deleteParams_cons, IH, URL_delete_pairs, list_filter_filter.
    apply list_filter_iff. intros kv. rewrite not_elem_of_cons. tauto.
Qed.

(** C7: URL normalisation is idempotent: for every input string,
    normalising returns a string, and normalising that string again returns
    it unchanged.  The URL class is any implementation of the interface that
    satisfies its laws. *)
Theorem normalizeUrl_idempotent (u : string) :
  ∃ v, normalizeUrl u = Normal v ∧ normalizeUrl v = Normal v.
Proof.
  destruct (URL_parse u) as [o|] eqn:Hparse.
  - exists (URL_toString (deleteParams paramsToRemove o)).
    split; [by apply normalizeUrl_parsed|].
    assert (URL_reachable (deleteParams paramsToRemove o)) as Hreach.
    { apply deleteParams_reachable. by econstructor. }
    rewrite (normalizeUrl_parsed _ _ (URL_reparse _ Hreach)).
    by rewrite deleteParams_idemp.
  - exists u. split; by apply normalizeUrl_unparsed.
Qed.

(** C8: for every input that parses as a URL, the normalised string parses
    to a URL whose query parameters are those of the input, in order, with
    exactly the ones named [utm_source], [utm_medium], [utm_campaign],
    [utm_term], [utm_content], [gclid], [dclid], [fbclid], [msclkid] or
    [yclid] left out: none of these ten stays, and every other parameter is
    retained. *)
Theorem normalizeUrl_strips_denylist (u : string) (o : URLobj) :
  URL_parse u = Some o →
  let denylist :=
    [ "utm_source"; "utm_medium"; "utm_campaign"; "utm_term"; "utm_content";
      "gclid"; "dclid"; "fbclid"; "msclkid"; "yclid" ] in
  ∃ v o', normalizeUrl u = Normal v ∧ URL_parse v = Some o' ∧
    URL_searchParams o'
    = filter (λ kv, kv.1 ∉ denylist) (URL_searchParams o) ∧
    (∀ kv, kv ∈ URL_searchParams o' → kv.1 ∉ denylist) ∧
    (∀ kv, kv ∈ URL_searchParams o → kv.1 ∉ denylist →
           kv ∈ URL_searchParams o').
Proof.
  intros Hparse denylist.
  assert (denylist = paramsToRemove) as -> by reflexivity.
  exists (URL_toString (deleteParams paramsToRemove o)),
         (deleteParams paramsToRemove o).
  split; [by apply normalizeUrl_parsed|].
  split; [apply URL_reparse, deleteParams_reachable; by econstructor|].
  rewrite deleteParams_pairs. split; [done|].
  split; intros kv; rewrite list_elem_of_filter; tauto.
Qed.

End NormalizerFacts.

(** C9: for every input string on which the URL constructor throws,
    [normalizeUrl] completes normally and returns the input unchanged. *)
Theorem normalizeUrl_invalid_unchanged {url : URLOps} (u : string) :
  URL_parse u = None → normalizeUrl u = Normal u.
Proof. apply normalizeUrl_unparsed. Qed.

(** ** Format dispatch *)

Section DispatchFacts.

Lemma startsWith_noLowercase s c p :
  isLowercase c = true → noLowercase s = true →
  JsString.startsWith s (String c p) = false.
Proof.
  intros Hc Hs. destruct s as [|a s]; simpl in *; [done|].
  apply andb_prop in Hs as [Ha _].
  destruct (Ascii.eqb_spec c a) as [->|]; [|done].
  rewrite Hc in Ha. discriminate.
Qed.

Lemma includes_noLowercase s c p :
  isLowercase c = true → noLowercase s = true →
  JsString.includes s (String c p) = false.
Proof.
  intros Hc. induction s as [|a s IH]; intros Hs.
  - done.
  - cbn [JsString.includes].
    rewrite (startsWith_noLowercase _ _ _ Hc Hs).
    simpl in Hs. apply andb_prop in Hs as [_ Hs]. by apply IH.
Qed.

Lemma dispatch_firstMatch contentType :
  dispatch contentType = firstMatch categoryTable contentType.
Proof. reflexivity. Qed.

Lemma dispatch_noLowercase contentType :
  noLowercase contentType = true → dispatch contentType = CatFallback.
Proof.
  intros Hs. unfold dispatch.
  rewrite !(includes_noLowercase contentType) by done.
  rewrite !(startsWith_noLowercase contentType) by done.
  done.
Qed.

End DispatchFacts.

(** C3, as the code has it: the dispatcher selects the first category of the
    fixed ordered table whose test holds on the content type, and the tests
    compare code units, so letter case matters: a content type without
    lower-case letters, such as the upper-case spelling of a category, passes
    no test and selects the fallback. *)
Theorem dispatch_first_match_case_sensitive (contentType : string) :
  dispatch contentType = firstMatch categoryTable contentType ∧
  (noLowercase contentType = true → dispatch contentType = CatFallback).
Proof.
  split; [apply dispatch_firstMatch | apply dispatch_noLowercase].
Qed.

(** C3, as stated, fails: the upper-case spelling of [text/html] selects
    another category than the lower-case one. *)
Lemma dispatch_uppercase_html_differs :
  dispatch "TEXT/HTML" = CatFallback ∧ dispatch "text/html" = CatHtml ∧
  dispatch "TEXT/HTML" ≠ dispatch "text/html".
Proof. repeat split. discriminate. Qed.

Lemma dispatch_first_match_case_sensitive_witness :
  noLowercase "TEXT/HTML" = true ∧ dispatch "TEXT/HTML" = CatFallback.
Proof.
  split; [reflexivity|].
  apply (proj2 (dispatch_first_match_case_sensitive "TEXT/HTML")). reflexivity.
Defined.

(** ** The handler monad *)

Section MonadFacts.
Context {A B : Type}.

Lemma bind_normal (m : M A) (f : A → M B) w a w' :
  m w = (Normal a, w') → (m ≫= f) w = f a w'.
Proof. intros Hm. unfold mbind, M_bind. by rewrite Hm. Qed.

Lemma bind_throw (m : M A) (f : A → M B) w e w' :
  m w = (Throw e, w') → (m ≫= f) w = (Throw e, w').
Proof. intros Hm. unfold mbind, M_bind. by rewrite Hm. Qed.

Lemma effect_normal (c : completion A) (f : A → World → World) a w :
  c = Normal a → effect c f w = (Normal a, f a w).
Proof. by intros ->. Qed.

Lemma effect_throw (c : completion A) (f : A → World → World) e w :
  c = Throw e → effect c f w = (Throw e, w).
Proof. by intros ->. Qed.

Lemma try_catch_normal (m : M A) (h : JsError → M A) w a w' :
  m w = (Normal a, w') → try_catch_M m h w = (Normal a, w').
Proof. intros Hm. unfold try_catch_M. by rewrite Hm. Qed.

Lemma try_catch_throw (m : M A) (h : JsError → M A) w e w' :
  m w = (Throw e, w') → try_catch_M m h w = h e w'.
Proof. intros Hm. unfold try_catch_M. by rewrite Hm. Qed.

End MonadFacts.

(** ** Savers and sessions *)

Section SaverFacts.
Variable ext : Externals.
Variables normalizedUrl hash archiveSubDir baseUrl : string.
Variable response : Response.
Variables htmlContent pdfData pngData buffer : string.
Hypothesis Hok : Succeeds ext response htmlContent pdfData pngData buffer.

Lemma saveMarkup_ok savedFiles w :
  saveMarkup ext hash archiveSubDir baseUrl savedFiles w
  = (Normal (<["html" := publicUrl baseUrl hash "html"]> savedFiles),
     set_files <[artifactPath archiveSubDir hash "html" := htmlContent]> w).
Proof.
  unfold saveMarkup.
  erewrite bind_normal; [|unfold page_content, lift; by rewrite (ok_content _ _ _ _ _ _ Hok)].
  erewrite bind_normal; [|by apply effect_normal, (ok_writeFile _ _ _ _ _ _ Hok)].
  reflexivity.
Qed.

Lemma saveBody_ok extension savedFiles w :
  saveBody ext hash archiveSubDir baseUrl response extension savedFiles w
  = (Normal (<["file" := publicUrl baseUrl hash extension]> savedFiles),
     set_files <[artifactPath archiveSubDir hash extension := buffer]> w).
Proof.
  unfold saveBody.
  erewrite bind_normal; [|unfold lift; by rewrite (ok_body _ _ _ _ _ _ Hok)].
  erewrite bind_normal; [|by apply effect_normal, (ok_writeFile _ _ _ _ _ _ Hok)].
  reflexivity.
Qed.

Lemma saveHtml_ok savedFiles w :
  saveHtml ext hash archiveSubDir baseUrl savedFiles w
  = (Normal (<["screenshot" := publicUrl baseUrl hash "png"]>
               (<["pdf" := publicUrl baseUrl hash "pdf"]>
                  (<["html" := publicUrl baseUrl hash "html"]> savedFiles))),
     set_files <[artifactPath archiveSubDir hash "png" := pngData]>
       (set_files <[artifactPath archiveSubDir hash "pdf" := pdfData]>
          (set_files <[artifactPath archiveSubDir hash "html" := htmlContent]> w))).
Proof.
  unfold saveHtml.
  erewrite bind_normal; [|apply saveMarkup_ok].
  erewrite bind_normal; cycle 1.
  { unfold page_pdf. erewrite bind_normal; [reflexivity|].
    by apply effect_normal, (ok_pdf _ _ _ _ _ _ Hok). }
  erewrite bind_normal; cycle 1.
  { unfold page_screenshot. erewrite bind_normal; [reflexivity|].
    by apply effect_normal, (ok_screenshot _ _ _ _ _ _ Hok). }
  reflexivity.
Qed.

End SaverFacts.

Section SessionFacts.
Variable ext : Externals.
Variables normalizedUrl hash archiveSubDir baseUrl : string.
Variable response : Response.
Hypothesis HnewPage : ext_newPage ext = Normal ().
Hypothesis Hgoto : ext_goto ext = Normal (Some response).

(** The size guard throws after the page was opened and before any saver. *)
Lemma sessionSteps_guarded w :
  sizeExceeded (response_headers response !! "content-length") = true →
  sessionSteps ext normalizedUrl hash archiveSubDir baseUrl w
  = (Throw sizeError, set_open_pages S w).
Proof.
  intros Hsize. unfold sessionSteps.
  erewrite bind_normal; [|by apply effect_normal].
  erewrite bind_normal; [|unfold page_goto, lift; by rewrite Hgoto].
  cbv beta iota zeta. rewrite Hsize. reflexivity.
Qed.

Lemma sessionSteps_dispatched w :
  sizeExceeded (response_headers response !! "content-length") = false →
  sessionSteps ext normalizedUrl hash archiveSubDir baseUrl w
  = runSaver ext hash archiveSubDir baseUrl response
      (default "" (response_headers response !! "content-type")) ∅
      (set_open_pages S w).
Proof.
  intros Hsize. unfold sessionSteps.
  erewrite bind_normal; [|by apply effect_normal].
  erewrite bind_normal; [|unfold page_goto, lift; by rewrite Hgoto].
  cbv beta iota zeta. rewrite Hsize. reflexivity.
Qed.

(** A throw in [sessionSteps] skips [page.close()]. *)
Lemma session_throw w e w' :
  sessionSteps ext normalizedUrl hash archiveSubDir baseUrl w = (Throw e, w') →
  session ext normalizedUrl hash archiveSubDir baseUrl w = (Throw e, w').
Proof. intros Hs. unfold session. by erewrite bind_throw. Qed.

Lemma session_normal w saved w' :
  sessionSteps ext normalizedUrl hash archiveSubDir baseUrl w = (Normal saved, w') →
  ext_close ext = Normal () →
  session ext normalizedUrl hash archiveSubDir baseUrl w
  = (Normal (), set_open_pages pred w').
Proof.
  intros Hs Hclose. unfold session.
  erewrite bind_normal; [|exact Hs].
  unfold page_close, effect. by rewrite Hclose.
Qed.

End SessionFacts.

(** ** Pages on throwing paths *)

Section PageFacts.
Variable ext : Externals.
Variables normalizedUrl hash archiveSubDir baseUrl : string.

Lemma keepsPages_ret {A} (a : A) : keepsPages (mret a).
Proof. by intros w. Qed.

Lemma keepsPages_throw {A} (e : JsError) : keepsPages (mthrow e : M A).
Proof. by intros w. Qed.

Lemma keepsPages_lift {A} (c : completion A) : keepsPages (lift c).
Proof. by intros w. Qed.

Lemma keepsPages_bind {A B} (m : M A) (f : A → M B) :
  keepsPages m → (∀ a, keepsPages (f a)) → keepsPages (m ≫= f).
Proof.
  intros Hm Hf w. unfold mbind, M_bind. specialize (Hm w).
  destruct (m w) as [[a|e] w1]; simpl in *; [|done].
  by rewrite Hf.
Qed.

Lemma keepsPages_store {A} (c : completion A) (g : A → gmap string string → gmap string string) :
  keepsPages (effect c (λ a, set_files (g a))).
Proof. intros w. unfold effect. by destruct c. Qed.

Lemma saveMarkup_keepsPages savedFiles :
  keepsPages (saveMarkup ext hash archiveSubDir baseUrl savedFiles).
Proof.
  apply keepsPages_bind; [apply keepsPages_lift|]. intros htmlContent.
  apply keepsPages_bind; [apply (keepsPages_store _ (λ _, _))|]. intros _.
  apply keepsPages_ret.
Qed.

Lemma saveBody_keepsPages response extension savedFiles :
  keepsPages (saveBody ext hash archiveSubDir baseUrl response extension savedFiles).
Proof.
  apply keepsPages_bind; [apply keepsPages_lift|]. intros buffer.
  apply keepsPages_bind; [apply (keepsPages_store _ (λ _, _))|]. intros _.
  apply keepsPages_ret.
Qed.

Lemma saveHtml_keepsPages savedFiles :
  keepsPages (saveHtml ext hash archiveSubDir baseUrl savedFiles).
Proof.
  apply keepsPages_bind; [apply saveMarkup_keepsPages|]. intros saved.
  apply keepsPages_bind.
  { apply keepsPages_bind; [apply keepsPages_store|]. intros _. apply keepsPages_ret. }
  intros _. apply keepsPages_bind.
  { apply keepsPages_bind; [apply keepsPages_store|]. intros _. apply keepsPages_ret. }
  intros _. apply keepsPages_ret.
Qed.

Lemma runSaver_keepsPages response contentType savedFiles :
  keepsPages (runSaver ext hash archiveSubDir baseUrl response contentType savedFiles).
Proof.
  unfold runSaver.
  destruct (dispatch contentType);
    auto using saveHtml_keepsPages, saveBody_keepsPages, saveMarkup_keepsPages.
Qed.

(** Once the page is open, no step before [page.close()] closes it. *)
Lemma sessionSteps_pages w :
  ext_newPage ext = Normal () →
  open_pages (sessionSteps ext normalizedUrl hash archiveSubDir baseUrl w).2
  = S (open_pages w).
Proof.
  intros Hpage. unfold sessionSteps.
  erewrite bind_normal; [|by apply effect_normal].
  match goal with
  | |- open_pages (?m ?w1).2 = _ => assert (keepsPages m) as Hkeep
  end.
  { apply keepsPages_bind; [apply keepsPages_lift|]. intros [response|].
    - apply keepsPages_bind.
      + destruct (sizeExceeded _); [apply keepsPages_throw|apply keepsPages_ret].
      + intros _. apply runSaver_keepsPages.
    - apply keepsPages_throw. }
  by rewrite Hkeep.
Qed.

(** Whenever the callback throws after the page was opened, the page is left
    open: [page.close()] is its last statement and no [finally] guards it. *)
Lemma session_throw_leaves_page_open w e w' :
  ext_newPage ext = Normal () →
  session ext normalizedUrl hash archiveSubDir baseUrl w = (Throw e, w') →
  open_pages w' = S (open_pages w).
Proof.
  intros Hpage. unfold session, mbind, M_bind.
  pose proof (sessionSteps_pages w Hpage) as Hpages.
  destruct (sessionSteps _ _ _ _ _ w) as [[saved|e1] w1]; simpl in Hpages.
  - unfold page_close, effect. destruct (ext_close ext); [done|].
    by intros [= _ <-].
  - by intros [= _ <-].
Qed.

End PageFacts.

(** ** The archive endpoint *)

Section EndpointFacts.
Context {url : URLOps}.
Variable sha1_hex : string → string.
Variable ARCHIVE_DIR : string.

(** [savedFiles] is declared inside the callback only: at [res.json(savedFiles)]
    no scope of the chain binds it. *)
Lemma savedFiles_unbound originalUrl normalizedUrl hash archiveSubDir baseUrl :
  resolveBinding "savedFiles"
    (handlerScope originalUrl normalizedUrl hash archiveSubDir baseUrl)
  = Throw referenceError.
Proof. reflexivity. Qed.

(** What the handler does once the sub-directory exists: whichever way the
    session settles, control reaches the [catch] clause. *)
Lemma archive_run ext req originalUrl normalizedUrl w :
  normalizeUrl originalUrl = Normal normalizedUrl →
  ext_mkdir ext = Normal () →
  let hash := sha1_hex normalizedUrl in
  let archiveSubDir := path_join ARCHIVE_DIR hash in
  let baseUrl := req_protocol req +:+ "://" +:+ req_host req +:+ "/files/" +:+ hash in
  archive sha1_hex ARCHIVE_DIR ext req originalUrl w
  = match session ext normalizedUrl hash archiveSubDir baseUrl
            (set_dirs (createdBy archiveSubDir) w) with
    | (Normal _, w') =>
        (Normal (mkHttpResponse 500 (errorBody referenceError)),
         set_console (λ c, c ++ [referenceError]) w')
    | (Throw e, w') =>
        (Normal (mkHttpResponse 500 (errorBody e)),
         set_console (λ c, c ++ [e]) w')
    end.
Proof.
  intros Hnorm Hmkdir hash archiveSubDir baseUrl. unfold archive.
  erewrite bind_normal; [|unfold lift; by rewrite Hnorm].
  erewrite bind_normal; [|by apply effect_normal].
  fold hash archiveSubDir baseUrl. unfold limit.
  destruct (session ext normalizedUrl hash archiveSubDir baseUrl _)
    as [[[]|e] w'] eqn:Hsession.
  - erewrite try_catch_throw; [reflexivity|].
    erewrite bind_normal; [|exact Hsession].
    erewrite bind_throw; [reflexivity|].
    unfold lift. by rewrite savedFiles_unbound.
  - erewrite try_catch_throw; [reflexivity|].
    erewrite bind_throw; [reflexivity|exact Hsession].
Qed.

(** A request with a truthy [url] parameter runs [archive]. *)
Lemma archiveHandler_run ext req originalUrl w :
  query_url req = Some originalUrl →
  JsString.truthy originalUrl = true →
  archiveHandler sha1_hex ARCHIVE_DIR ext req w
  = match archive sha1_hex ARCHIVE_DIR ext req originalUrl w with
    | (Normal r, w') => (Some r, w')
    | (Throw _, w') => (None, w')
    end.
Proof. intros Hq Ht. unfold archiveHandler. by rewrite Hq, Ht. Qed.

End EndpointFacts.

(** ** Dispatch outcomes *)

Section OutcomeFacts.
Variable ext : Externals.
Variables normalizedUrl hash archiveSubDir baseUrl : string.
Variable response : Response.
Variables htmlContent pdfData pngData buffer : string.
Hypothesis Hok : Succeeds ext response htmlContent pdfData pngData buffer.

(** When every call succeeds, every saver completes normally and leaves the
    page open for [page.close()]. *)
Lemma runSaver_ok contentType savedFiles w :
  ∃ saved w',
    runSaver ext hash archiveSubDir baseUrl response contentType savedFiles w
    = (Normal saved, w') ∧ open_pages w' = open_pages w.
Proof.
  unfold runSaver.
  destruct (dispatch contentType);
    first [ rewrite (saveHtml_ok ext hash archiveSubDir baseUrl response htmlContent pdfData pngData buffer Hok)
          | rewrite (saveBody_ok ext hash archiveSubDir baseUrl response htmlContent pdfData pngData buffer Hok)
          | rewrite (saveMarkup_ok ext hash archiveSubDir baseUrl response htmlContent pdfData pngData buffer Hok) ];
    eauto.
Qed.

Lemma session_ok w :
  sizeExceeded (response_headers response !! "content-length") = false →
  ∃ w', session ext normalizedUrl hash archiveSubDir baseUrl w = (Normal (), w')
        ∧ open_pages w' = open_pages w.
Proof.
  intros Hsize.
  destruct (runSaver_ok (default "" (response_headers response !! "content-type"))
              ∅ (set_open_pages S w)) as (saved & w1 & Hrun & Hpages).
  eexists. split.
  - eapply session_normal; [|apply (ok_close _ _ _ _ _ _ Hok)].
    rewrite (sessionSteps_dispatched ext normalizedUrl hash archiveSubDir baseUrl
               response (ok_newPage _ _ _ _ _ _ Hok) (ok_goto _ _ _ _ _ _ Hok) _ Hsize).
    exact Hrun.
  - simpl. by rewrite Hpages.
Qed.

Lemma size_three (a b c : string) :
  size (<["screenshot" := c]> (<["pdf" := b]> (<["html" := a]> (∅ : gmap string string)))) = 3.
Proof.
  rewrite !map_size_insert_None, map_size_empty; [done|by simplify_map_eq..].
Qed.

Lemma size_one (k a : string) :
  size (<[k := a]> (∅ : gmap string string)) = 1.
Proof. by rewrite map_size_insert_None, map_size_empty. Qed.

End OutcomeFacts.

(** ** Responses of the endpoint *)

Section EndpointTheorems.
Context {url : URLOps}.
Variable sha1_hex : string → string.
Variable ARCHIVE_DIR : string.

#[local] Abbreviation handler := (archiveHandler sha1_hex ARCHIVE_DIR).

Lemma parseInt_truthy s n : JsString.parseInt s = Some n → JsString.truthy s = true.
Proof. destruct s; [discriminate|done]. Qed.

Lemma sizeExceeded_above s n :
  JsString.parseInt s = Some n → (FILE_SIZE_LIMIT < n)%Z →
  sizeExceeded (Some s) = true.
Proof.
  intros Hparse Hn. unfold sizeExceeded.
  rewrite (parseInt_truthy _ _ Hparse), Hparse. by rewrite bool_decide_eq_true_2.
Qed.

Lemma sizeExceeded_nan s : JsString.parseInt s = None → sizeExceeded (Some s) = false.
Proof. intros Hparse. unfold sizeExceeded. rewrite Hparse. apply andb_false_r. Qed.

(** The response and the final world when the size guard throws. *)
Lemma handler_guarded ext req originalUrl response w :
  query_url req = Some originalUrl →
  JsString.truthy originalUrl = true →
  ext_mkdir ext = Normal () →
  ext_newPage ext = Normal () →
  ext_goto ext = Normal (Some response) →
  sizeExceeded (response_headers response !! "content-length") = true →
  ∃ dir,
    handler ext req w
    = (Some (mkHttpResponse 500 (errorBody sizeError)),
       set_console (λ c, c ++ [sizeError])
         (set_open_pages S (set_dirs (createdBy dir) w))).
Proof.
  intros Hq Ht Hmkdir Hpage Hgoto Hsize.
  destruct (normalizeUrl_returns originalUrl) as [normalizedUrl Hnorm].
  eexists.
  rewrite (archiveHandler_run _ _ _ _ _ _ Hq Ht).
  rewrite (archive_run _ _ _ _ _ _ _ Hnorm Hmkdir). cbv zeta.
  erewrite session_throw; [reflexivity|].
  by apply sessionSteps_guarded with (response := response).
Qed.

(** C4: for every response whose [content-length] header is present and
    parses to an integer above 1073741824, the request is answered with
    status 500 and the message of the size guard, and the files on disk are
    those from before the request: nothing is written. *)
Theorem oversize_responds_500_writes_nothing
    ext req originalUrl response contentLength (n : Z) w :
  query_url req = Some originalUrl →
  JsString.truthy originalUrl = true →
  ext_mkdir ext = Normal () →
  ext_newPage ext = Normal () →
  ext_goto ext = Normal (Some response) →
  response_headers response !! "content-length" = Some contentLength →
  JsString.parseInt contentLength = Some n →
  (1073741824 < n)%Z →
  (handler ext req w).1
  = Some (mkHttpResponse 500
            (VObject {[ "error" := "File size exceeds 1GB, not saving." ]})) ∧
  files (handler ext req w).2 = files w.
Proof.
  intros Hq Ht Hmkdir Hpage Hgoto Hheader Hparse Hn.
  destruct (handler_guarded ext req originalUrl response w) as [dir ->]; try done.
  rewrite Hheader. by eapply sizeExceeded_above.
Qed.

(** C2, where the code departs from the claim: when the size guard throws,
    the page opened for the request is still open after the handler has
    responded. *)
Theorem size_abort_leaves_page_open ext req originalUrl response w :
  query_url req = Some originalUrl →
  JsString.truthy originalUrl = true →
  ext_mkdir ext = Normal () →
  ext_newPage ext = Normal () →
  ext_goto ext = Normal (Some response) →
  sizeExceeded (response_headers response !! "content-length") = true →
  status <$> (handler ext req w).1 = Some 500 ∧
  open_pages (handler ext req w).2 = S (open_pages w).
Proof.
  intros Hq Ht Hmkdir Hpage Hgoto Hsize.
  by destruct (handler_guarded ext req originalUrl response w) as [dir ->].
Qed.

(** On the path where every step succeeds, the page is closed. *)
Lemma success_closes_page
    ext req originalUrl response htmlContent pdfData pngData buffer w :
  query_url req = Some originalUrl →
  JsString.truthy originalUrl = true →
  ext_mkdir ext = Normal () →
  Succeeds ext response htmlContent pdfData pngData buffer →
  sizeExceeded (response_headers response !! "content-length") = false →
  open_pages (handler ext req w).2 = open_pages w.
Proof.
  intros Hq Ht Hmkdir Hok Hsize.
  destruct (normalizeUrl_returns originalUrl) as [normalizedUrl Hnorm].
  rewrite (archiveHandler_run _ _ _ _ _ _ Hq Ht).
  rewrite (archive_run _ _ _ _ _ _ _ Hnorm Hmkdir). cbv zeta.
  edestruct (session_ok ext normalizedUrl) as (w' & -> & Hpages); [done..|].
  simpl. by rewrite Hpages.
Qed.

(** C1, where the code departs from the claim: when navigation, the size
    check and every save step succeed, the handler answers with status 500
    and the message of the [ReferenceError] raised by [res.json(savedFiles)],
    not with status 200 and the saved artifacts. *)
Theorem success_responds_500
    ext req originalUrl response htmlContent pdfData pngData buffer w :
  query_url req = Some originalUrl →
  JsString.truthy originalUrl = true →
  ext_mkdir ext = Normal () →
  Succeeds ext response htmlContent pdfData pngData buffer →
  sizeExceeded (response_headers response !! "content-length") = false →
  (handler ext req w).1
  = Some (mkHttpResponse 500 (VObject {[ "error" := "savedFiles is not defined" ]})).
Proof.
  intros Hq Ht Hmkdir Hok Hsize.
  destruct (normalizeUrl_returns originalUrl) as [normalizedUrl Hnorm].
  rewrite (archiveHandler_run _ _ _ _ _ _ Hq Ht).
  rewrite (archive_run _ _ _ _ _ _ _ Hnorm Hmkdir). cbv zeta.
  by edestruct (session_ok ext normalizedUrl) as (w' & -> & _).
Qed.

(** No request at all is answered with status 200. *)
Lemma handler_never_200 ext req w r :
  (handler ext req w).1 = Some r → status r ≠ 200.
Proof.
  unfold archiveHandler.
  destruct (query_url req) as [originalUrl|]; [|by intros [= <-]].
  destruct (JsString.truthy originalUrl); [|by intros [= <-]].
  destruct (normalizeUrl_returns originalUrl) as [normalizedUrl Hnorm].
  destruct (ext_mkdir ext) as [[]|e] eqn:Hmkdir.
  - rewrite (archive_run _ _ _ _ _ _ _ Hnorm Hmkdir). cbv zeta.
    destruct (session _ _ _ _ _ _) as [[?|?] ?]; by intros [= <-].
  - unfold archive.
    erewrite bind_normal; [|unfold lift; by rewrite Hnorm].
    erewrite bind_throw; [done|]. by apply effect_throw.
Qed.

(** Dropping a [content-length] header that does not parse changes nothing
    in the session. *)
Lemma sessionSteps_nan ext response contentLength normalizedUrl hash archiveSubDir baseUrl w :
  ext_goto ext = Normal (Some response) →
  response_headers response !! "content-length" = Some contentLength →
  JsString.parseInt contentLength = None →
  sessionSteps ext normalizedUrl hash archiveSubDir baseUrl w
  = sessionSteps (withGoto ext (Normal (Some (withoutContentLength response))))
      normalizedUrl hash archiveSubDir baseUrl w.
Proof.
  intros Hgoto Hheader Hparse.
  unfold sessionSteps, mbind, M_bind, newPage, page_goto, lift.
  cbn [withGoto ext_newPage ext_goto]. rewrite Hgoto.
  destruct (effect (ext_newPage ext) _ w) as [[[]|e] w1]; [|done].
  cbn [withoutContentLength response_headers].
  rewrite Hheader, lookup_delete_eq, (sizeExceeded_nan _ Hparse).
  rewrite lookup_delete_ne by done.
  reflexivity.
Qed.

(** C10: for every response whose [content-length] header is present but
    does not parse to a number, the size guard does not throw, and the
    handler answers and acts on the world exactly as for the same response
    without that header. *)
Theorem nan_content_length_as_absent ext req response contentLength w :
  ext_goto ext = Normal (Some response) →
  response_headers response !! "content-length" = Some contentLength →
  JsString.parseInt contentLength = None →
  sizeExceeded (response_headers response !! "content-length") = false ∧
  handler ext req w
  = handler (withGoto ext (Normal (Some (withoutContentLength response)))) req w.
Proof.
  intros Hgoto Hheader Hparse. split.
  - rewrite Hheader. by apply sizeExceeded_nan.
  - unfold archiveHandler.
    destruct (query_url req) as [originalUrl|]; [|done].
    destruct (JsString.truthy originalUrl); [|done].
    unfold archive, try_catch_M, limit, session, mbind, M_bind, mkdirSync, lift.
    cbn [withGoto ext_mkdir].
    destruct (normalizeUrl originalUrl) as [normalizedUrl|e]; [|done].
    destruct (effect (ext_mkdir ext) _ w) as [[[]|e] w1]; [|done].
    rewrite <- (sessionSteps_nan ext response contentLength) by done.
    reflexivity.
Qed.

End EndpointTheorems.

(** ** The concurrency gate *)

Module GateFacts.
Import Gate.

Lemma removeFirst_length id l :
  id ∈ l → S (length (removeFirst id l)) = length l.
Proof.
  induction l as [|x l IH]; intros Hin.
  - by apply elem_of_nil in Hin.
  - simpl. case_bool_decide as Hx; [done|].
    apply elem_of_cons in Hin as [->|Hin]; [done|].
    simpl. by rewrite IH.
Qed.

Lemma startNext_bounded capacity s : bounded capacity s → bounded capacity (startNext capacity s).
Proof.
  unfold bounded, startNext. intros Hs.
  destruct (waiting s) as [|id rest]; [done|].
  case_bool_decide; [|done].
  simpl. rewrite length_app. simpl. lia.
Qed.

Lemma step_bounded capacity s e : bounded capacity s → bounded capacity (step capacity s e).
Proof.
  intros Hs. destruct e as [id|id o]; simpl.
  - by apply startNext_bounded.
  - case_bool_decide as Hin; [|done].
    apply startNext_bounded. unfold bounded in *; simpl.
    pose proof (removeFirst_length _ _ Hin). lia.
Qed.

Lemma foldl_bounded capacity trace s :
  bounded capacity s → bounded capacity (foldl (step capacity) s trace).
Proof.
  revert s. induction trace as [|e trace IH]; intros s Hs; [done|].
  simpl. by apply IH, step_bounded.
Qed.

Lemma run_bounded capacity trace : bounded capacity (run capacity trace).
Proof. apply foldl_bounded. unfold bounded; simpl. lia. Qed.

(** Settling a running session, whatever its outcome, hands its slot to the
    oldest waiting one. *)
Lemma settle_starts_next capacity s id o next rest :
  bounded capacity s → id ∈ running s → waiting s = next :: rest →
  step capacity s (Settle id o)
  = mkState (removeFirst id (running s) ++ [next]) rest.
Proof.
  intros Hs Hin Hwait. simpl.
  rewrite bool_decide_eq_true_2 by done.
  unfold startNext; simpl. rewrite Hwait.
  rewrite bool_decide_eq_true_2; [done|].
  pose proof (removeFirst_length _ _ Hin). unfold bounded in Hs. lia.
Qed.

End GateFacts.

(** C6: the capacity of the gate is 5; after any sequence of arrivals and
    settlements at most 5 sessions are running; and when a running session
    settles while requests wait, whether it completed or raised, the oldest
    waiting request is running afterwards. *)
Theorem gate_bounded_and_released (trace : list Gate.event) :
  let s := Gate.run PARALLEL_LIMIT trace in
  PARALLEL_LIMIT = 5 ∧
  length (Gate.running s) ≤ 5 ∧
  ∀ id o next rest,
    id ∈ Gate.running s → Gate.waiting s = next :: rest →
    let s' := Gate.step PARALLEL_LIMIT s (Gate.Settle id o) in
    next ∈ Gate.running s' ∧ Gate.waiting s' = rest ∧ length (Gate.running s') ≤ 5.
Proof.
  intros s. split; [done|].
  pose proof (GateFacts.run_bounded PARALLEL_LIMIT trace) as Hs. fold s in Hs.
  split; [exact Hs|].
  intros id o next rest Hin Hwait s'.
  pose proof (GateFacts.step_bounded PARALLEL_LIMIT s (Gate.Settle id o) Hs) as Hs'.
  fold s' in Hs'. subst s'.
  rewrite (GateFacts.settle_starts_next _ _ _ _ _ _ Hs Hin Hwait) in *.
  split; [|split; [done|exact Hs']].
  simpl. apply elem_of_app. right. by apply list_elem_of_singleton.
Qed.

(** ** The properties at concrete inputs *)

Lemma normalizeUrl_idempotent_witness :
  ∃ v, normalizeUrl (url := QueryURL.ops) "https://ex.com/?utm_source=x&id=1" = Normal v
       ∧ normalizeUrl v = Normal v.
Proof.
  apply (normalizeUrl_idempotent (url := QueryURL.ops) (url_laws := QueryURLFacts.laws)).
Defined.

Lemma normalizeUrl_strips_denylist_witness :
  QueryURL.parse "https://ex.com/?utm_source=x&id=1&gclid=42"
  = Some (QueryURL.mk "https://ex.com/"
            [("utm_source", "x"); ("id", "1"); ("gclid", "42")]) ∧
  normalizeUrl (url := QueryURL.ops) "https://ex.com/?utm_source=x&id=1&gclid=42"
  = Normal "https://ex.com/?id=1" ∧
  ∃ o', QueryURL.parse "https://ex.com/?id=1" = Some o' ∧
        QueryURL.pairs o' = [("id", "1")].
Proof.
  split; [reflexivity|]. split; [reflexivity|].
  destruct (normalizeUrl_strips_denylist (url := QueryURL.ops)
              (url_laws := QueryURLFacts.laws)
              "https://ex.com/?utm_source=x&id=1&gclid=42"
              (QueryURL.mk "https://ex.com/"
                 [("utm_source", "x"); ("id", "1"); ("gclid", "42")])
              eq_refl)
    as (v & o' & Hv & Hparse & Hpairs & _).
  assert (v = "https://ex.com/?id=1") as -> by (vm_compute in Hv; congruence).
  exists o'. split; [exact Hparse|].
  etransitivity; [exact Hpairs|]. vm_compute. reflexivity.
Defined.

Lemma normalizeUrl_invalid_unchanged_witness :
  QueryURL.parse "not a url" = None ∧
  normalizeUrl (url := QueryURL.ops) "not a url" = Normal "not a url".
Proof.
  split; [reflexivity|].
  apply (normalizeUrl_invalid_unchanged (url := QueryURL.ops) "not a url"). reflexivity.
Defined.

Section Witnesses.
Import Sample.

#[local] Abbreviation handle := (archiveHandler (url := QueryURL.ops) digest archiveDir).

Lemma allGood_succeeds r :
  response_body r = Normal "raw-body" →
  Succeeds (allGood r) r "<html></html>" "%PDF-1.4" "PNG" "raw-body".
Proof. intros Hbody. by constructor. Qed.

Lemma oversize_responds_500_writes_nothing_witness :
  JsString.parseInt "2000000000" = Some 2000000000%Z ∧
  (handle (allGood (respondSized "application/zip" "2000000000"))
     (request "https://example.com/big.zip") world).1
  = Some (mkHttpResponse 500
            (VObject {[ "error" := "File size exceeds 1GB, not saving." ]})) ∧
  files (handle (allGood (respondSized "application/zip" "2000000000"))
           (request "https://example.com/big.zip") world).2 = ∅.
Proof.
  split; [reflexivity|].
  apply (oversize_responds_500_writes_nothing (url := QueryURL.ops) digest archiveDir
           (allGood (respondSized "application/zip" "2000000000"))
           (request "https://example.com/big.zip") "https://example.com/big.zip"
           (respondSized "application/zip" "2000000000") "2000000000" 2000000000 world);
    (reflexivity || lia).
Defined.

Lemma size_abort_leaves_page_open_witness :
  status <$> (handle (allGood (respondSized "application/zip" "2000000000"))
                (request "https://example.com/big.zip") world).1 = Some 500 ∧
  open_pages (handle (allGood (respondSized "application/zip" "2000000000"))
                (request "https://example.com/big.zip") world).2 = 1.
Proof.
  apply (size_abort_leaves_page_open (url := QueryURL.ops) digest archiveDir
           (allGood (respondSized "application/zip" "2000000000"))
           (request "https://example.com/big.zip") "https://example.com/big.zip"
           (respondSized "application/zip" "2000000000") world);
    reflexivity.
Defined.

Lemma success_responds_500_witness :
  (handle (allGood (respond "text/html; charset=utf-8"))
     (request "https://example.com") world).1
  = Some (mkHttpResponse 500 (VObject {[ "error" := "savedFiles is not defined" ]})).
Proof.
  apply (success_responds_500 (url := QueryURL.ops) digest archiveDir
           (allGood (respond "text/html; charset=utf-8"))
           (request "https://example.com") "https://example.com"
           (respond "text/html; charset=utf-8")
           "<html></html>" "%PDF-1.4" "PNG" "raw-body" world);
    first [reflexivity | exact (allGood_succeeds (respond "text/html; charset=utf-8") eq_refl)].
Defined.

Lemma nan_content_length_as_absent_witness :
  JsString.parseInt "abc" = None ∧
  sizeExceeded (response_headers (respondSized "image/jpeg" "abc") !! "content-length")
  = false ∧
  handle (allGood (respondSized "image/jpeg" "abc")) (request "https://example.com/a.jpg") world
  = handle (withGoto (allGood (respondSized "image/jpeg" "abc"))
              (Normal (Some (withoutContentLength (respondSized "image/jpeg" "abc")))))
      (request "https://example.com/a.jpg") world.
Proof.
  split; [reflexivity|].
  apply (nan_content_length_as_absent (url := QueryURL.ops) digest archiveDir
           (allGood (respondSized "image/jpeg" "abc"))
           (request "https://example.com/a.jpg")
           (respondSized "image/jpeg" "abc") "abc" world);
    reflexivity.
Defined.

Lemma gate_bounded_and_released_witness :
  let s := Gate.run PARALLEL_LIMIT
             [Gate.Arrive 1; Gate.Arrive 2; Gate.Arrive 3; Gate.Arrive 4;
              Gate.Arrive 5; Gate.Arrive 6] in
  3 ∈ Gate.running s ∧ Gate.waiting s = [6] ∧
  6 ∈ Gate.running (Gate.step PARALLEL_LIMIT s (Gate.Settle 3 Gate.Raised)).
Proof.
  intros s.
  assert (3 ∈ Gate.running s) as Hin by (vm_compute; apply list_elem_of_In; simpl; tauto).
  assert (Gate.waiting s = [6]) as Hwait by reflexivity.
  split; [exact Hin|]. split; [exact Hwait|].
  apply (gate_bounded_and_released
           [Gate.Arrive 1; Gate.Arrive 2; Gate.Arrive 3; Gate.Arrive 4;
            Gate.Arrive 5; Gate.Arrive 6])
    with (id := 3) (o := Gate.Raised) (rest := []); assumption.
Defined.

End Witnesses.

(** * Further properties of the service *)

(** ** What a computation leaves alone *)

Section Frames.
Context {B : Type} (component : World → B).

Lemma preserves_ret {A} (a : A) : preserves component (mret a).
Proof. by intros w. Qed.

Lemma preserves_throw {A} (e : JsError) : preserves component (mthrow e : M A).
Proof. by intros w. Qed.

Lemma preserves_lift {A} (c : completion A) : preserves component (lift c).
Proof. by intros w. Qed.

Lemma preserves_bind {A C} (m : M A) (f : A → M C) :
  preserves component m → (∀ a, preserves component (f a)) →
  preserves component (m ≫= f).
Proof.
  intros Hm Hf w. unfold mbind, M_bind. specialize (Hm w).
  destruct (m w) as [[a|e] w1]; simpl in *; [|done].
  by rewrite Hf.
Qed.

Lemma preserves_effect {A} (c : completion A) (f : A → World → World) :
  (∀ a w, component (f a w) = component w) →
  preserves component (effect c f).
Proof. intros Hf w. unfold effect. destruct c; simpl; [apply Hf|done]. Qed.

End Frames.

Ltac frame_steps :=
  repeat first
    [ apply preserves_ret | apply preserves_throw | apply preserves_lift
    | apply preserves_effect; by intros
    | apply preserves_bind; [|intros ?] ].

Section SessionFrames.
Variable ext : Externals.
Variables normalizedUrl hash archiveSubDir baseUrl : string.

Lemma runSaver_preserves {B} (component : World → B) response contentType savedFiles :
  (∀ g w, component (set_files g w) = component w) →
  preserves component
    (runSaver ext hash archiveSubDir baseUrl response contentType savedFiles).
Proof.
  intros Hfiles. unfold runSaver.
  destruct (dispatch contentType);
    unfold saveHtml, saveBody, saveMarkup, page_content, writeFileSync,
      page_pdf, page_screenshot;
    frame_steps.
Qed.

Lemma session_preserves {B} (component : World → B) :
  (∀ g w, component (set_files g w) = component w) →
  (∀ g w, component (set_open_pages g w) = component w) →
  preserves component (session ext normalizedUrl hash archiveSubDir baseUrl).
Proof.
  intros Hfiles Hpages.
  unfold session, sessionSteps, newPage, page_goto, page_close.
  apply preserves_bind; [|intros ?; by apply preserves_effect].
  apply preserves_bind; [by apply preserves_effect|intros _].
  apply preserves_bind; [apply preserves_lift|intros [response|]];
    [|apply preserves_throw].
  apply preserves_bind; [|intros _; by apply runSaver_preserves].
  destruct (sizeExceeded _); [apply preserves_throw|apply preserves_ret].
Qed.

Lemma session_console w :
  console (session ext normalizedUrl hash archiveSubDir baseUrl w).2 = console w.
Proof. by apply (session_preserves console). Qed.

Lemma session_dirs w :
  dirs (session ext normalizedUrl hash archiveSubDir baseUrl w).2 = dirs w.
Proof. by apply (session_preserves dirs). Qed.

End SessionFrames.

(** ** Requests the endpoint refuses, and failures before and during a session *)

Section EndpointPaths.
Context {url : URLOps}.
Variable sha1_hex : string → string.
Variable ARCHIVE_DIR : string.

#[local] Abbreviation handler := (archiveHandler sha1_hex ARCHIVE_DIR).

Lemma handler_no_url ext req w :
  query_url req = None ∨ query_url req = Some "" →
  handler ext req w = (Some badRequest, w).
Proof. intros [Hq|Hq]; unfold archiveHandler; by rewrite Hq. Qed.

Lemma handler_mkdir_throw ext req originalUrl e w :
  query_url req = Some originalUrl →
  JsString.truthy originalUrl = true →
  ext_mkdir ext = Throw e →
  handler ext req w = (None, w).
Proof.
  intros Hq Ht Hmkdir.
  destruct (normalizeUrl_returns originalUrl) as [normalizedUrl Hnorm].
  rewrite (archiveHandler_run _ _ _ _ _ _ Hq Ht). unfold archive.
  erewrite bind_normal; [|unfold lift; by rewrite Hnorm].
  erewrite bind_throw; [done|]. by apply effect_throw.
Qed.

(** The shape of every answer: the fixed 400 with the world untouched, or a
    500 built from an error that was logged. *)
Lemma handler_answer ext req w r :
  (handler ext req w).1 = Some r →
  (r = badRequest ∧ (query_url req = None ∨ query_url req = Some "") ∧
   (handler ext req w).2 = w) ∨
  (∃ e, r = mkHttpResponse 500 (errorBody e) ∧
        console (handler ext req w).2 = console w ++ [e]).
Proof.
  destruct (query_url req) as [originalUrl|] eqn:Hq;
    [|rewrite handler_no_url by auto; intros [= <-]; left; auto].
  destruct (JsString.truthy originalUrl) eqn:Ht; cycle 1.
  { destruct originalUrl; [|done].
    rewrite handler_no_url by auto. intros [= <-]. left; auto. }
  destruct (ext_mkdir ext) as [[]|e] eqn:Hmkdir;
    [|by rewrite (handler_mkdir_throw _ _ _ _ _ Hq Ht Hmkdir)].
  destruct (normalizeUrl_returns originalUrl) as [normalizedUrl Hnorm].
  rewrite (archiveHandler_run _ _ _ _ _ _ Hq Ht).
  rewrite (archive_run _ _ _ _ _ _ _ Hnorm Hmkdir). cbv zeta.
  match goal with
  | |- context [session ?x ?u ?h ?d ?b ?w0] =>
      pose proof (session_console x u h d b w0) as Hc;
      destruct (session x u h d b w0) as [[?|e] w']
  end; simpl in *; intros [= <-]; right; eexists; (split; [reflexivity|]);
    by rewrite Hc.
Qed.

Lemma errorBody_message e :
  ∃ message, errorBody e = VObject {[ "error" := message ]} ∧
             JsString.truthy message = true ∧
             (JsString.truthy (err_message e) = true → message = err_message e) ∧
             (err_message e = "" → message = "Archiving failed.").
Proof.
  unfold errorBody. destruct (err_message e) as [|c m]; simpl.
  - exists "Archiving failed.". by repeat split.
  - exists (String c m). by repeat split.
Qed.

(** X1: the endpoint answers 400 exactly when the [url] query parameter is
    missing or empty; it then sends the fixed error message and leaves the
    world as it was: no directory, no page, no file, no log entry. *)
Theorem bad_request_iff_no_url ext req w :
  (query_url req = None ∨ query_url req = Some "" →
   handler ext req w = (Some badRequest, w)) ∧
  (∀ r, (handler ext req w).1 = Some r → status r = 400 →
        query_url req = None ∨ query_url req = Some "").
Proof.
  split; [apply handler_no_url|].
  intros r Hr Hstatus.
  destruct (handler_answer _ _ _ _ Hr) as [(_ & Hq & _)|(e & -> & _)]; [done|].
  discriminate.
Qed.

(** X2: [fs.mkdirSync] of the hash directory runs outside the [try]: when it
    throws, the handler's promise rejects without the handler having sent a
    response, and it has opened no page, written no file and logged
    nothing. *)
Theorem mkdir_failure_sends_nothing ext req originalUrl e w :
  query_url req = Some originalUrl →
  JsString.truthy originalUrl = true →
  ext_mkdir ext = Throw e →
  handler ext req w = (None, w).
Proof. apply handler_mkdir_throw. Qed.

(** X3: when navigation fails, the endpoint answers 500 with the message of
    the navigation error, or "Archiving failed." when that message is empty;
    the error is logged once, no file is written, the hash directory has
    been created, with its missing ancestors, and the page opened for the
    request stays open. *)
Theorem navigation_failure_responds_500 ext req originalUrl e w :
  query_url req = Some originalUrl →
  JsString.truthy originalUrl = true →
  ext_mkdir ext = Normal () →
  ext_newPage ext = Normal () →
  ext_goto ext = Throw e →
  let result := handler ext req w in
  result.1 = Some (mkHttpResponse 500 (VObject {[ "error" :=
      if JsString.truthy (err_message e) then err_message e
      else "Archiving failed." ]})) ∧
  files result.2 = files w ∧
  console result.2 = console w ++ [e] ∧
  open_pages result.2 = S (open_pages w) ∧
  ∃ normalizedUrl,
    normalizeUrl originalUrl = Normal normalizedUrl ∧
    dirs result.2
    = {[ path_join ARCHIVE_DIR (sha1_hex normalizedUrl) ]}
      ∪ list_to_set (ancestors (path_join ARCHIVE_DIR (sha1_hex normalizedUrl)))
      ∪ dirs w.
Proof.
  intros Hq Ht Hmkdir Hpage Hgoto result. subst result.
  destruct (normalizeUrl_returns originalUrl) as [normalizedUrl Hnorm].
  rewrite (archiveHandler_run _ _ _ _ _ _ Hq Ht).
  rewrite (archive_run _ _ _ _ _ _ _ Hnorm Hmkdir). cbv zeta.
  erewrite session_throw; cycle 1.
  { unfold sessionSteps.
    erewrite bind_normal; [|by apply effect_normal].
    erewrite bind_throw; [reflexivity|].
    unfold page_goto, lift. by rewrite Hgoto. }
  simpl. repeat split; eauto.
Qed.

End EndpointPaths.

(** ** Every answer of the endpoint, and what the page shows for it *)

Section EndpointAnswers.
Context {url : URLOps}.
Variable sha1_hex : string → string.
Variable ARCHIVE_DIR : string.

#[local] Abbreviation handler := (archiveHandler sha1_hex ARCHIVE_DIR).

Lemma handler_answer_message ext req w r :
  (handler ext req w).1 = Some r →
  ∃ message,
    json r = VObject {[ "error" := message ]} ∧
    JsString.truthy message = true ∧
    ((status r = 400 ∧ (handler ext req w).2 = w) ∨
     (status r = 500 ∧
      ∃ e, console (handler ext req w).2 = console w ++ [e] ∧
           message = if JsString.truthy (err_message e) then err_message e
                     else "Archiving failed.")).
Proof.
  intros Hr.
  destruct (handler_answer _ _ _ _ _ _ Hr) as [(-> & _ & Hw)|(e & -> & Hc)].
  - eexists. split; [reflexivity|]. split; [done|]. by left.
  - exists (if JsString.truthy (err_message e) then err_message e
            else "Archiving failed.").
    split; [done|]. split; [by destruct (err_message e)|].
    right. split; [done|]. by exists e.
Qed.

(** X4: whatever the request and whatever the externals do, an answer of the
    endpoint has status 400 or 500 and a body with the single member [error]
    holding a non-empty message; a 400 leaves the world untouched, and a 500
    comes with exactly one logged error, whose message (or "Archiving
    failed." when it is empty) is the one sent. *)
Theorem every_answer_is_an_error ext req w r :
  (handler ext req w).1 = Some r →
  ∃ message,
    json r = VObject {[ "error" := message ]} ∧
    JsString.truthy message = true ∧
    ((status r = 400 ∧ (handler ext req w).2 = w) ∨
     (status r = 500 ∧
      ∃ e, console (handler ext req w).2 = console w ++ [e] ∧
           message = if JsString.truthy (err_message e) then err_message e
                     else "Archiving failed.")).
Proof. apply handler_answer_message. Qed.

Lemma showResult_error statusCode message :
  statusCode = 400 ∨ statusCode = 500 →
  JsString.truthy message = true →
  showResult statusCode {[ "error" := message ]} = ShowText message.
Proof.
  intros Hstatus Hmessage. unfold showResult, response_ok.
  rewrite bool_decide_eq_false_2 by lia.
  by rewrite lookup_singleton_eq, Hmessage.
Qed.

(** X5: for every answer of the endpoint, the submit handler of the page
    shows the error message of the answer as plain text; it never shows the
    block with the saved artifacts. *)
Theorem page_shows_error_message ext req w r :
  (handler ext req w).1 = Some r →
  ∃ message,
    json r = VObject {[ "error" := message ]} ∧
    onSubmit (fetchedFrom r) = ShowText message.
Proof.
  intros Hr.
  destruct (handler_answer_message _ _ _ _ Hr) as (message & Hjson & Ht & Hcases).
  exists message. split; [done|].
  unfold fetchedFrom. rewrite Hjson. simpl.
  apply showResult_error; [|done].
  destruct Hcases as [[-> _]|[-> _]]; auto.
Qed.

End EndpointAnswers.

(** ** Extensions *)

Section ExtensionFacts.

Lemma includes_char s c :
  JsString.includes s (String c "") = QueryURL.occurs c s.
Proof.
  induction s as [|a s IH]; [done|].
  cbn [JsString.includes QueryURL.occurs JsString.startsWith].
  rewrite IH, (Ascii.eqb_sym c a). destruct (Ascii.eqb a c); [by destruct s|done].
Qed.

Lemma split_no_separator s c :
  Forall (λ x, JsString.includes x (String c "") = false) (JsString.split s c).
Proof.
  eapply Forall_impl; [apply QueryURLFacts.split_clean|].
  intros x Hx. simpl in Hx. by rewrite includes_char.
Qed.

Lemma videoExt_no_separator contentType :
  JsString.includes (videoExt contentType) "/" = false.
Proof.
  unfold videoExt.
  destruct (JsString.split contentType "/" !! 1) as [e|] eqn:He; [|done].
  destruct (JsString.truthy e); [|done].
  pose proof (split_no_separator contentType "/") as Hall.
  rewrite Forall_forall in Hall. apply Hall.
  by eapply list_elem_of_lookup_2.
Qed.

Lemma videoExt_truthy contentType : JsString.truthy (videoExt contentType) = true.
Proof.
  unfold videoExt.
  destruct (JsString.split contentType "/" !! 1) as [e|]; [|done].
  by destruct (JsString.truthy e) eqn:He.
Qed.

Lemma videoExt_second_segment subtype tail :
  JsString.includes subtype "/" = false →
  videoExt ("video/" +:+ subtype) = (if JsString.truthy subtype then subtype else "mp4") ∧
  videoExt ("video/" +:+ subtype +:+ "/" +:+ tail)
  = (if JsString.truthy subtype then subtype else "mp4").
Proof.
  intros Hsub. rewrite includes_char in Hsub. unfold videoExt. split.
  - change ("video/" +:+ subtype) with ("video" +:+ String "/" subtype).
    rewrite QueryURLFacts.split_append by done.
    by rewrite (QueryURLFacts.split_clean_string _ _ Hsub).
  - change ("video/" +:+ subtype +:+ "/" +:+ tail)
      with ("video" +:+ String "/" (subtype +:+ String "/" tail)).
    rewrite QueryURLFacts.split_append by done.
    by rewrite (QueryURLFacts.split_append _ _ _ Hsub).
Qed.

End ExtensionFacts.

(** X6: the extension of a video file is the text between the first and the
    second slash of the content type, parameters included, and [mp4] when
    that text is empty; for every content type it is non-empty and holds no
    path separator. *)
Theorem videoExt_is_second_segment (contentType subtype tail : string) :
  JsString.truthy (videoExt contentType) = true ∧
  JsString.includes (videoExt contentType) "/" = false ∧
  (JsString.includes subtype "/" = false →
   videoExt ("video/" +:+ subtype) = (if JsString.truthy subtype then subtype else "mp4") ∧
   videoExt ("video/" +:+ subtype +:+ "/" +:+ tail)
   = (if JsString.truthy subtype then subtype else "mp4")).
Proof.
  split; [apply videoExt_truthy|].
  split; [apply videoExt_no_separator|apply videoExt_second_segment].
Qed.

Lemma videoExt_is_second_segment_witness :
  JsString.includes "mp4; codecs=avc1" "/" = false ∧
  videoExt "video/mp4; codecs=avc1" = "mp4; codecs=avc1" ∧
  videoExt "video/mp4; codecs=avc1/x" = "mp4; codecs=avc1".
Proof.
  split; [reflexivity|].
  apply (proj2 (proj2 (videoExt_is_second_segment "video/webm" "mp4; codecs=avc1" "x"))).
  reflexivity.
Defined.

(** ** Savers with exactly the calls they make *)

Section SaverPaths.
Variable ext : Externals.
Variables normalizedUrl hash archiveSubDir baseUrl : string.
Variable response : Response.
Hypothesis HnewPage : ext_newPage ext = Normal ().
Hypothesis Hgoto : ext_goto ext = Normal (Some response).
Hypothesis Hsize :
  sizeExceeded (response_headers response !! "content-length") = false.

Lemma saveMarkup_run htmlContent savedFiles w :
  ext_content ext = Normal htmlContent →
  ext_writeFile ext (artifactPath archiveSubDir hash "html") = Normal () →
  saveMarkup ext hash archiveSubDir baseUrl savedFiles w
  = (Normal (<["html" := publicUrl baseUrl hash "html"]> savedFiles),
     set_files <[artifactPath archiveSubDir hash "html" := htmlContent]> w).
Proof.
  intros Hcontent Hwrite. unfold saveMarkup.
  erewrite bind_normal; [|unfold page_content, lift; by rewrite Hcontent].
  erewrite bind_normal; [|by apply effect_normal, Hwrite].
  reflexivity.
Qed.

Lemma saveBody_run extension buffer savedFiles w :
  response_body response = Normal buffer →
  ext_writeFile ext (artifactPath archiveSubDir hash extension) = Normal () →
  saveBody ext hash archiveSubDir baseUrl response extension savedFiles w
  = (Normal (<["file" := publicUrl baseUrl hash extension]> savedFiles),
     set_files <[artifactPath archiveSubDir hash extension := buffer]> w).
Proof.
  intros Hbody Hwrite. unfold saveBody.
  erewrite bind_normal; [|unfold lift; by rewrite Hbody].
  erewrite bind_normal; [|by apply effect_normal, Hwrite].
  reflexivity.
Qed.

Lemma saveHtml_pdf_throws htmlContent e savedFiles w :
  ext_content ext = Normal htmlContent →
  ext_writeFile ext (artifactPath archiveSubDir hash "html") = Normal () →
  ext_pdf ext = Throw e →
  saveHtml ext hash archiveSubDir baseUrl savedFiles w
  = (Throw e, set_files <[artifactPath archiveSubDir hash "html" := htmlContent]> w).
Proof.
  intros Hcontent Hwrite Hpdf. unfold saveHtml.
  erewrite bind_normal; [|by apply saveMarkup_run].
  erewrite bind_throw; [reflexivity|].
  unfold page_pdf. erewrite bind_throw; [reflexivity|]. by apply effect_throw.
Qed.

(** The six categories stored as raw bodies have extensions that are
    non-empty and free of path separators. *)
Lemma raw_extension contentType :
  dispatch contentType ≠ CatHtml → dispatch contentType ≠ CatFallback →
  ∃ extension,
    JsString.truthy extension = true ∧
    JsString.includes extension "/" = false ∧
    ∀ savedFiles,
      runSaver ext hash archiveSubDir baseUrl response contentType savedFiles
      = saveBody ext hash archiveSubDir baseUrl response extension savedFiles.
Proof.
  intros Hhtml Hfallback. unfold runSaver.
  destruct (dispatch contentType); try done.
  - by exists "pdf".
  - exists (imageExt contentType). unfold imageExt.
    by repeat destruct (JsString.includes contentType _).
  - exists (videoExt contentType).
    by rewrite videoExt_truthy, videoExt_no_separator.
  - by exists "csv".
  - exists (excelExt contentType). unfold excelExt.
    by destruct (JsString.includes contentType _).
  - exists (wordExt contentType). unfold wordExt.
    by destruct (JsString.includes contentType _).
  - by exists "zip".
Qed.

(** X7: a response without a [content-type] header, or with an empty one,
    is handled by the fallback: the rendered markup is stored as
    [<hash>.html], the record holds the single entry [html], and the raw
    body, the PDF and the screenshot are not asked for. *)
Theorem missing_content_type_saves_markup htmlContent w :
  response_headers response !! "content-type" = None ∨
  response_headers response !! "content-type" = Some "" →
  ext_content ext = Normal htmlContent →
  ext_writeFile ext (artifactPath archiveSubDir hash "html") = Normal () →
  sessionSteps ext normalizedUrl hash archiveSubDir baseUrl w
  = (Normal (<["html" := publicUrl baseUrl hash "html"]> ∅),
     set_files <[artifactPath archiveSubDir hash "html" := htmlContent]>
       (set_open_pages S w)).
Proof.
  intros Htype Hcontent Hwrite.
  rewrite (sessionSteps_dispatched _ _ _ _ _ _ HnewPage Hgoto _ Hsize).
  assert (default "" (response_headers response !! "content-type") = "") as ->
    by (destruct Htype as [-> | ->]; done).
  unfold runSaver. change (dispatch "") with CatFallback. cbv beta iota.
  by apply saveMarkup_run.
Qed.

(** X8: for a content type of one of the six raw categories (PDF, image,
    video, CSV, spreadsheet, document, archive), a session whose body read
    and file write succeed stores exactly one file, holding the raw body,
    named [<hash>.<extension>] with a non-empty extension free of path
    separators, and records it under [file]; the outcome does not depend on
    the rendering calls. *)
Theorem raw_categories_store_body contentType buffer w :
  response_headers response !! "content-type" = Some contentType →
  dispatch contentType ≠ CatHtml →
  dispatch contentType ≠ CatFallback →
  response_body response = Normal buffer →
  (∀ file, ext_writeFile ext file = Normal ()) →
  ∃ extension,
    JsString.truthy extension = true ∧
    JsString.includes extension "/" = false ∧
    sessionSteps ext normalizedUrl hash archiveSubDir baseUrl w
    = (Normal (<["file" := publicUrl baseUrl hash extension]> ∅),
       set_files <[artifactPath archiveSubDir hash extension := buffer]>
         (set_open_pages S w)).
Proof.
  intros Htype Hhtml Hfallback Hbody Hwrite.
  destruct (raw_extension contentType Hhtml Hfallback)
    as (extension & Ht & Hsep & Hrun).
  exists extension. split; [done|]. split; [done|].
  rewrite (sessionSteps_dispatched _ _ _ _ _ _ HnewPage Hgoto _ Hsize).
  rewrite Htype. simpl default. rewrite Hrun. by apply saveBody_run.
Qed.

End SaverPaths.

(** ** Where the handler writes *)

Section WriteFacts.
Context (P : string → Prop).

Lemma applyWrites_app ws1 ws2 fs :
  applyWrites (ws1 ++ ws2) fs = applyWrites ws2 (applyWrites ws1 fs).
Proof. apply foldl_app. Qed.

Lemma writesWithin_none {A} (m : M A) bound :
  preserves files m → writesWithin P bound m.
Proof.
  intros Hm w. exists []. rewrite Hm. repeat split; [simpl; lia|constructor].
Qed.

Lemma writesWithin_weaken {A} (m : M A) bound bound' :
  bound ≤ bound' → writesWithin P bound m → writesWithin P bound' m.
Proof.
  intros Hle Hm w. destruct (Hm w) as (ws & Hfiles & Hlen & Hall).
  exists ws. repeat split; [done|lia|done].
Qed.

Lemma writesWithin_bind {A C} (m : M A) (f : A → M C) bound1 bound2 :
  writesWithin P bound1 m → (∀ a, writesWithin P bound2 (f a)) →
  writesWithin P (bound1 + bound2) (m ≫= f).
Proof.
  intros Hm Hf w. unfold mbind, M_bind.
  destruct (Hm w) as (ws1 & Hfiles1 & Hlen1 & Hall1).
  destruct (m w) as [[a|e] w1]; simpl in *.
  - destruct (Hf a w1) as (ws2 & Hfiles2 & Hlen2 & Hall2).
    exists (ws1 ++ ws2). rewrite applyWrites_app, <- Hfiles1.
    repeat split; [done|rewrite length_app; lia|by apply Forall_app].
  - exists ws1. repeat split; [done|lia|done].
Qed.

Lemma writesWithin_store {A} (c : completion A) (path : string) (data : A → string) :
  P path →
  writesWithin P 1 (effect c (λ a, set_files <[path := data a]>)).
Proof.
  intros Hpath w. unfold effect. destruct c as [a|e]; simpl.
  - exists [(path, data a)]. repeat split; [done|].
    by constructor.
  - exists []. repeat split; [simpl; lia|constructor].
Qed.

End WriteFacts.

Section SessionWrites.
Variable ext : Externals.
Variables normalizedUrl hash archiveSubDir baseUrl : string.

#[local] Abbreviation inDir := (isArtifact archiveSubDir hash).

Lemma artifact_path extension :
  JsString.includes extension "/" = false →
  inDir (artifactPath archiveSubDir hash extension).
Proof. intros Hsep. by exists extension. Qed.

Lemma saveMarkup_writes savedFiles :
  writesWithin inDir 1 (saveMarkup ext hash archiveSubDir baseUrl savedFiles).
Proof.
  unfold saveMarkup.
  apply (writesWithin_bind _ _ _ 0 1);
    [by apply writesWithin_none, preserves_lift|intros htmlContent].
  apply (writesWithin_bind _ _ _ 1 0);
    [|intros _; by apply writesWithin_none, preserves_ret].
  apply (writesWithin_store _ _ _ (λ _, htmlContent)). by apply artifact_path.
Qed.

Lemma saveBody_writes response extension savedFiles :
  JsString.includes extension "/" = false →
  writesWithin inDir 1
    (saveBody ext hash archiveSubDir baseUrl response extension savedFiles).
Proof.
  intros Hsep. unfold saveBody.
  apply (writesWithin_bind _ _ _ 0 1);
    [by apply writesWithin_none, preserves_lift|intros buffer].
  apply (writesWithin_bind _ _ _ 1 0);
    [|intros _; by apply writesWithin_none, preserves_ret].
  apply (writesWithin_store _ _ _ (λ _, buffer)). by apply artifact_path.
Qed.

Lemma engine_writes (c : completion string) extension :
  JsString.includes extension "/" = false →
  writesWithin inDir 1
    (effect c (λ data, set_files <[artifactPath archiveSubDir hash extension := data]>);;
     mret ()).
Proof.
  intros Hsep. apply (writesWithin_bind _ _ _ 1 0);
    [|intros _; by apply writesWithin_none, preserves_ret].
  apply (writesWithin_store _ _ _ (λ data, data)). by apply artifact_path.
Qed.

Lemma saveHtml_writes savedFiles :
  writesWithin inDir 3 (saveHtml ext hash archiveSubDir baseUrl savedFiles).
Proof.
  unfold saveHtml.
  apply (writesWithin_bind _ _ _ 1 2); [apply saveMarkup_writes|intros saved].
  apply (writesWithin_bind _ _ _ 1 1); [by apply (engine_writes _ "pdf")|intros _].
  apply (writesWithin_bind _ _ _ 1 0); [by apply (engine_writes _ "png")|intros _].
  by apply writesWithin_none, preserves_ret.
Qed.

Lemma runSaver_writes response contentType savedFiles :
  writesWithin inDir 3
    (runSaver ext hash archiveSubDir baseUrl response contentType savedFiles).
Proof.
  assert (dispatch contentType = CatHtml ∨ dispatch contentType = CatFallback ∨
          (dispatch contentType ≠ CatHtml ∧ dispatch contentType ≠ CatFallback))
    as [Hhtml|[Hfallback|[Hhtml Hfallback]]]
    by (destruct (dispatch contentType); auto; right; right; split; discriminate).
  { unfold runSaver. rewrite Hhtml. apply saveHtml_writes. }
  { unfold runSaver. rewrite Hfallback.
    eapply writesWithin_weaken; [|apply saveMarkup_writes]. lia. }
  destruct (raw_extension ext hash archiveSubDir baseUrl response contentType
              Hhtml Hfallback) as (extension & _ & Hsep & Hrun).
  rewrite Hrun. eapply writesWithin_weaken; [|by apply saveBody_writes]. lia.
Qed.

Lemma session_writes :
  writesWithin inDir 3 (session ext normalizedUrl hash archiveSubDir baseUrl).
Proof.
  unfold session, sessionSteps, newPage, page_goto, page_close.
  apply (writesWithin_bind _ _ _ 3 0);
    [|intros ?; by apply writesWithin_none, preserves_effect].
  apply (writesWithin_bind _ _ _ 0 3);
    [by apply writesWithin_none, preserves_effect|intros _].
  apply (writesWithin_bind _ _ _ 0 3);
    [by apply writesWithin_none, preserves_lift|intros [response|]];
    [|by apply writesWithin_none, preserves_throw].
  apply (writesWithin_bind _ _ _ 0 3); [|intros _; apply runSaver_writes].
  apply writesWithin_none.
  destruct (sizeExceeded _); [apply preserves_throw|apply preserves_ret].
Qed.

End SessionWrites.

Section EndpointWrites.
Context {url : URLOps}.
Variable sha1_hex : string → string.
Variable ARCHIVE_DIR : string.

#[local] Abbreviation handler := (archiveHandler sha1_hex ARCHIVE_DIR).

(** X9: with paths joined by [/], whatever the request and the externals,
    all that the handler does to the files is at most three writes, each to
    [<hash>.<extension>] in the hash directory [ARCHIVE_DIR/<hash>] of the
    request's normalised URL, the extension holding no [/]; and the only
    directories it may create are that hash directory and its ancestors. *)
Theorem writes_stay_in_hash_directory ext req w :
  ∃ writes,
    files (handler ext req w).2 = applyWrites writes (files w) ∧
    length writes ≤ 3 ∧
    Forall (λ pd, ∃ originalUrl normalizedUrl,
              query_url req = Some originalUrl ∧
              normalizeUrl originalUrl = Normal normalizedUrl ∧
              isArtifact (path_join ARCHIVE_DIR (sha1_hex normalizedUrl))
                (sha1_hex normalizedUrl) pd.1) writes ∧
    (dirs (handler ext req w).2 = dirs w ∨
     ∃ originalUrl normalizedUrl,
       query_url req = Some originalUrl ∧
       normalizeUrl originalUrl = Normal normalizedUrl ∧
       dirs (handler ext req w).2
       = {[ path_join ARCHIVE_DIR (sha1_hex normalizedUrl) ]}
         ∪ list_to_set (ancestors (path_join ARCHIVE_DIR (sha1_hex normalizedUrl)))
         ∪ dirs w).
Proof.
  assert (∀ w', (handler ext req w) = w' → w'.2 = w →
    ∃ writes, files w'.2 = applyWrites writes (files w) ∧ length writes ≤ 3 ∧
      Forall (λ pd, ∃ originalUrl normalizedUrl,
              query_url req = Some originalUrl ∧
              normalizeUrl originalUrl = Normal normalizedUrl ∧
              isArtifact (path_join ARCHIVE_DIR (sha1_hex normalizedUrl))
                (sha1_hex normalizedUrl) pd.1) writes ∧
      (dirs w'.2 = dirs w ∨ ∃ originalUrl normalizedUrl,
         query_url req = Some originalUrl ∧
         normalizeUrl originalUrl = Normal normalizedUrl ∧
         dirs w'.2
         = {[ path_join ARCHIVE_DIR (sha1_hex normalizedUrl) ]}
           ∪ list_to_set (ancestors (path_join ARCHIVE_DIR (sha1_hex normalizedUrl)))
           ∪ dirs w))
    as Hsame.
  { intros w' _ ->. exists []. repeat split; [simpl; lia|constructor|by left]. }
  destruct (query_url req) as [originalUrl|] eqn:Hq;
    [|eapply Hsame; [done|by rewrite handler_no_url by auto]].
  destruct (JsString.truthy originalUrl) eqn:Ht; cycle 1.
  { destruct originalUrl; [|done].
    eapply Hsame; [done|by rewrite handler_no_url by auto]. }
  destruct (ext_mkdir ext) as [[]|e] eqn:Hmkdir;
    [|eapply Hsame; [done|by rewrite (handler_mkdir_throw _ _ _ _ _ _ _ Hq Ht Hmkdir)]].
  clear Hsame.
  destruct (normalizeUrl_returns originalUrl) as [normalizedUrl Hnorm].
  rewrite (archiveHandler_run _ _ _ _ _ _ Hq Ht).
  rewrite (archive_run _ _ _ _ _ _ _ Hnorm Hmkdir). cbv zeta.
  match goal with
  | |- context [session ?x ?u ?h ?d ?b ?w0] =>
      destruct (session_writes x u h d b w0) as (writes & Hfiles & Hlen & Hall);
      pose proof (session_dirs x u h d b w0) as Hdirs;
      destruct (session x u h d b w0) as [[?|e] w']
  end; simpl in *; exists writes;
    (split; [done|]; split; [done|]; split;
     [eapply Forall_impl; [exact Hall|]; intros pd Hpd; by exists originalUrl, normalizedUrl
     |right; by exists originalUrl, normalizedUrl]).
Qed.

(** X10: saving is not undone.  When the content type holds [text/html], the
    markup is written and [page.pdf] then fails, the endpoint answers 500
    with the message of that failure while [<hash>.html] stays on disk; no
    other file is written and the page stays open. *)
Theorem pdf_failure_keeps_markup
    ext req originalUrl response contentType htmlContent e w :
  query_url req = Some originalUrl →
  JsString.truthy originalUrl = true →
  ext_mkdir ext = Normal () →
  ext_newPage ext = Normal () →
  ext_goto ext = Normal (Some response) →
  sizeExceeded (response_headers response !! "content-length") = false →
  response_headers response !! "content-type" = Some contentType →
  JsString.includes contentType "text/html" = true →
  ext_content ext = Normal htmlContent →
  (∀ file, ext_writeFile ext file = Normal ()) →
  ext_pdf ext = Throw e →
  let result := handler ext req w in
  result.1 = Some (mkHttpResponse 500 (errorBody e)) ∧
  open_pages result.2 = S (open_pages w) ∧
  ∃ normalizedUrl,
    normalizeUrl originalUrl = Normal normalizedUrl ∧
    files result.2
    = <[artifactPath (path_join ARCHIVE_DIR (sha1_hex normalizedUrl))
          (sha1_hex normalizedUrl) "html" := htmlContent]> (files w).
Proof.
  intros Hq Ht Hmkdir Hpage Hgoto Hsize Htype Hhtml Hcontent Hwrite Hpdf result.
  subst result.
  destruct (normalizeUrl_returns originalUrl) as [normalizedUrl Hnorm].
  rewrite (archiveHandler_run _ _ _ _ _ _ Hq Ht).
  rewrite (archive_run _ _ _ _ _ _ _ Hnorm Hmkdir). cbv zeta.
  erewrite session_throw; cycle 1.
  { rewrite (sessionSteps_dispatched _ _ _ _ _ _ Hpage Hgoto _ Hsize).
    rewrite Htype. simpl default. unfold runSaver, dispatch. rewrite Hhtml.
    cbv beta iota. by apply saveHtml_pdf_throws. }
  simpl. repeat split. by exists normalizedUrl.
Qed.



Context {url_laws : URLLaws}.





End EndpointWrites.

(** ** Start-up *)

Section StartupFacts.
Variable ARCHIVE_DIR : string.




End StartupFacts.

(** ** The size guard on header values *)

Section GuardFacts.

Lemma digit_not_space c d : JsString.digitValue c = Some d → JsString.isWhiteSpace c = false.
Proof.
  destruct c as [[] [] [] [] [] [] [] []]; vm_compute; (done || discriminate).
Qed.

Lemma readDigits_nonneg s acc count :
  (0 ≤ acc)%Z → (0 ≤ (JsString.readDigits s acc count).1)%Z.
Proof.
  revert acc count. induction s as [|c s IH]; intros acc count Hacc; [done|].
  simpl. destruct (JsString.digitValue c) as [d|] eqn:Hd; [|done].
  apply IH. unfold JsString.digitValue in Hd.
  case_bool_decide; [|done]. injection Hd as <-. lia.
Qed.

Lemma readDigits_trailing ds c rest acc count :
  isDigits ds = true → JsString.digitValue c = None →
  JsString.readDigits (ds +:+ String c rest) acc count
  = JsString.readDigits ds acc count.
Proof.
  revert acc count. induction ds as [|a ds IH]; intros acc count Hds Hc; simpl.
  - by rewrite Hc.
  - simpl in Hds. destruct (JsString.digitValue a); [|done]. by apply IH.
Qed.

(** A string that starts with a digit is read from its first character. *)
Lemma parseInt_digit_start a s d :
  JsString.digitValue a = Some d →
  JsString.parseInt (String a s)
  = match JsString.readDigits (String a s) 0 0 with
    | (_, O) => None
    | (v, S _) => Some (1 * v)%Z
    end.
Proof.
  intros Hd. unfold JsString.parseInt.
  cbn [JsString.trimStart]. rewrite (digit_not_space _ _ Hd).
  destruct a as [[] [] [] [] [] [] [] []]; try done; vm_compute in Hd; discriminate.
Qed.

Lemma parseInt_ignores_tail ds c rest :
  isDigits ds = true → ds ≠ "" → JsString.digitValue c = None →
  JsString.parseInt (ds +:+ String c rest) = JsString.parseInt ds.
Proof.
  intros Hds Hne Hc. destruct ds as [|a ds]; [done|].
  assert (∃ d, JsString.digitValue a = Some d) as [d Hd].
  { simpl in Hds. destruct (JsString.digitValue a); [eauto|done]. }
  change (String a ds +:+ String c rest) with (String a (ds +:+ String c rest)).
  rewrite !(parseInt_digit_start _ _ _ Hd).
  change (String a (ds +:+ String c rest)) with (String a ds +:+ String c rest).
  by rewrite readDigits_trailing.
Qed.

Lemma parseInt_minus s :
  JsString.parseInt (String "-" s)
  = match JsString.readDigits s 0 0 with
    | (_, O) => None
    | (v, S _) => Some (-1 * v)%Z
    end.
Proof. reflexivity. Qed.

End GuardFacts.

(** X15: the size guard judges a [content-length] value by the number it
    starts with.  Text after the leading digits, such as a second value
    appended by a proxy, is ignored; and a value with a minus sign never
    makes the guard throw. *)
Theorem guard_reads_leading_number (digits rest : string) (c : Ascii.ascii) :
  (isDigits digits = true → digits ≠ "" → JsString.digitValue c = None →
   sizeExceeded (Some (digits +:+ String c rest)) = sizeExceeded (Some digits)) ∧
  sizeExceeded (Some (String "-" rest)) = false.
Proof.
  split.
  - intros Hds Hne Hc. unfold sizeExceeded.
    rewrite (parseInt_ignores_tail _ _ _ Hds Hne Hc).
    destruct digits; [done|]. reflexivity.
  - unfold sizeExceeded. rewrite parseInt_minus.
    pose proof (readDigits_nonneg rest 0 0 ltac:(lia)) as Hv.
    destruct (JsString.readDigits rest 0 0) as [v [|n]]; simpl in *; [done|].
    rewrite bool_decide_eq_false_2; [done|]. unfold FILE_SIZE_LIMIT. lia.
Qed.

(** ** The further properties at concrete inputs *)

Section FurtherWitnesses.
Import Sample.

#[local] Abbreviation handle := (archiveHandler (url := QueryURL.ops) digest archiveDir).

Lemma bad_request_iff_no_url_witness :
  handle (allGood (respond "text/html")) (mkRequest (Some "") "http" "localhost:3000") world
  = (Some badRequest, world).
Proof.
  apply (proj1 (bad_request_iff_no_url (url := QueryURL.ops) digest archiveDir
                  (allGood (respond "text/html"))
                  (mkRequest (Some "") "http" "localhost:3000") world)).
  right. reflexivity.
Defined.

Lemma mkdir_failure_sends_nothing_witness :
  handle (Scenario.mkdirFails (respond "text/html") (Scenario.failure "EACCES"))
    (request "https://example.com/") world
  = (None, world).
Proof.
  apply (mkdir_failure_sends_nothing (url := QueryURL.ops) digest archiveDir
           (Scenario.mkdirFails (respond "text/html") (Scenario.failure "EACCES"))
           (request "https://example.com/") "https://example.com/"
           (Scenario.failure "EACCES") world);
    reflexivity.
Defined.

Lemma navigation_failure_responds_500_witness :
  let result :=
    handle (Scenario.gotoFails (Scenario.failure "net::ERR_NAME_NOT_RESOLVED"))
      (request "https://nowhere.invalid/") world in
  result.1 = Some (mkHttpResponse 500
                     (VObject {[ "error" := "net::ERR_NAME_NOT_RESOLVED" ]})) ∧
  files result.2 = ∅ ∧
  console result.2 = [Scenario.failure "net::ERR_NAME_NOT_RESOLVED"] ∧
  open_pages result.2 = 1 ∧
  ∃ normalizedUrl,
    normalizeUrl (url := QueryURL.ops) "https://nowhere.invalid/" = Normal normalizedUrl ∧
    dirs result.2
    = {[ path_join archiveDir (digest normalizedUrl) ]}
      ∪ list_to_set (ancestors (path_join archiveDir (digest normalizedUrl)))
      ∪ ∅.
Proof.
  apply (navigation_failure_responds_500 (url := QueryURL.ops) digest archiveDir
           (Scenario.gotoFails (Scenario.failure "net::ERR_NAME_NOT_RESOLVED"))
           (request "https://nowhere.invalid/") "https://nowhere.invalid/"
           (Scenario.failure "net::ERR_NAME_NOT_RESOLVED") world);
    reflexivity.
Defined.

Lemma every_answer_is_an_error_witness :
  ∃ message,
    VObject {[ "error" := "savedFiles is not defined" ]} = VObject {[ "error" := message ]} ∧
    JsString.truthy message = true.
Proof.
  destruct (every_answer_is_an_error (url := QueryURL.ops) digest archiveDir
              (allGood (respond "text/html")) (request "https://example.com/") world
              (mkHttpResponse 500 (VObject {[ "error" := "savedFiles is not defined" ]}))
              eq_refl) as (message & Hjson & Ht & _).
  exists message. split; [exact Hjson|exact Ht].
Defined.

Lemma page_shows_error_message_witness :
  ∃ message,
    VObject {[ "error" := "savedFiles is not defined" ]} = VObject {[ "error" := message ]} ∧
    onSubmit (fetchedFrom
                (mkHttpResponse 500 (VObject {[ "error" := "savedFiles is not defined" ]})))
    = ShowText message.
Proof.
  apply (page_shows_error_message (url := QueryURL.ops) digest archiveDir
           (allGood (respond "text/html")) (request "https://example.com/") world
           (mkHttpResponse 500 (VObject {[ "error" := "savedFiles is not defined" ]}))).
  reflexivity.
Defined.

Lemma missing_content_type_saves_markup_witness :
  sessionSteps (allGood (mkResponse ∅ (Normal "raw-body")))
    "https://example.com/" "da39a3ee" "/srv/archive/da39a3ee"
    "http://localhost:3000/files/da39a3ee" world
  = (Normal (<["html" := "http://localhost:3000/files/da39a3ee/da39a3ee.html"]> ∅),
     set_files <["/srv/archive/da39a3ee/da39a3ee.html" := "<html></html>"]>
       (set_open_pages S world)).
Proof.
  apply (missing_content_type_saves_markup
           (allGood (mkResponse ∅ (Normal "raw-body")))
           "https://example.com/" "da39a3ee" "/srv/archive/da39a3ee"
           "http://localhost:3000/files/da39a3ee"
           (mkResponse ∅ (Normal "raw-body")));
    first [reflexivity | left; reflexivity].
Defined.

Lemma raw_categories_store_body_witness :
  ∃ extension,
    JsString.truthy extension = true ∧
    JsString.includes extension "/" = false ∧
    sessionSteps (allGood (respond "application/zip"))
      "https://example.com/a.zip" "da39a3ee" "/srv/archive/da39a3ee"
      "http://localhost:3000/files/da39a3ee" world
    = (Normal (<["file" := publicUrl "http://localhost:3000/files/da39a3ee"
                             "da39a3ee" extension]> ∅),
       set_files <[artifactPath "/srv/archive/da39a3ee" "da39a3ee" extension := "raw-body"]>
         (set_open_pages S world)).
Proof.
  apply (raw_categories_store_body (allGood (respond "application/zip"))
           "https://example.com/a.zip" "da39a3ee" "/srv/archive/da39a3ee"
           "http://localhost:3000/files/da39a3ee" (respond "application/zip")
           eq_refl eq_refl eq_refl "application/zip" "raw-body" world);
    first [reflexivity | discriminate | intros; reflexivity].
Defined.

Lemma pdf_failure_keeps_markup_witness :
  let result :=
    handle (Scenario.pdfFails (respond "text/html") (Scenario.failure "Printing failed"))
      (request "https://example.com/") world in
  result.1 = Some (mkHttpResponse 500 (errorBody (Scenario.failure "Printing failed"))) ∧
  open_pages result.2 = 1 ∧
  ∃ normalizedUrl,
    normalizeUrl (url := QueryURL.ops) "https://example.com/" = Normal normalizedUrl ∧
    files result.2
    = <[artifactPath (path_join archiveDir (digest normalizedUrl))
          (digest normalizedUrl) "html" := "<html></html>"]> ∅.
Proof.
  apply (pdf_failure_keeps_markup (url := QueryURL.ops) digest archiveDir
           (Scenario.pdfFails (respond "text/html") (Scenario.failure "Printing failed"))
           (request "https://example.com/") "https://example.com/"
           (respond "text/html") "text/html" "<html></html>"
           (Scenario.failure "Printing failed") world);
    first [reflexivity | intros; reflexivity].
Defined.





Lemma guard_reads_leading_number_witness :
  sizeExceeded (Some "2000000000, 5") = sizeExceeded (Some "2000000000") ∧
  sizeExceeded (Some "-2000000000") = false.
Proof.
  destruct (guard_reads_leading_number "2000000000" " 5" ",") as [Htail _].
  destruct (guard_reads_leading_number "" "2000000000" ",") as [_ Hminus].
  split; [apply Htail; (reflexivity || discriminate)|exact Hminus].
Defined.

End FurtherWitnesses.

(** ** The dispatch table, row by row *)

Section TableFacts.
Variable ext : Externals.
Variables normalizedUrl hash archiveSubDir baseUrl : string.
Variable response : Response.
Variables htmlContent pdfData pngData buffer : string.
Hypothesis Hok : Succeeds ext response htmlContent pdfData pngData buffer.

Lemma stored_bundle w :
  storedExactly archiveSubDir hash baseUrl w
    (saveHtml ext hash archiveSubDir baseUrl ∅ (set_open_pages S w))
    [ ("html", "html", htmlContent); ("pdf", "pdf", pdfData);
      ("screenshot", "png", pngData) ].
Proof.
  rewrite (saveHtml_ok ext hash archiveSubDir baseUrl response htmlContent
             pdfData pngData buffer Hok).
  eexists. split; [reflexivity|]. split; [apply size_three|]. by split.
Qed.

Lemma stored_body extension w :
  storedExactly archiveSubDir hash baseUrl w
    (saveBody ext hash archiveSubDir baseUrl response extension ∅
       (set_open_pages S w))
    [ ("file", extension, buffer) ].
Proof.
  rewrite (saveBody_ok ext hash archiveSubDir baseUrl response htmlContent
             pdfData pngData buffer Hok).
  eexists. split; [reflexivity|]. split; [apply size_one|]. by split.
Qed.

Lemma stored_markup w :
  storedExactly archiveSubDir hash baseUrl w
    (saveMarkup ext hash archiveSubDir baseUrl ∅ (set_open_pages S w))
    [ ("html", "html", htmlContent) ].
Proof.
  rewrite (saveMarkup_ok ext hash archiveSubDir baseUrl response htmlContent
             pdfData pngData buffer Hok).
  eexists. split; [reflexivity|]. split; [apply size_one|]. by split.
Qed.

(** C5: with every step succeeding, the outcome follows the fixed table,
    the first matching row deciding.  A content type containing [text/html]
    yields exactly the three artifacts [.html], [.pdf], [.png]; otherwise one
    containing [application/pdf] yields the body as [.pdf]; otherwise one
    starting with [image/] yields the body as [.jpg] if it contains [jpeg],
    [.gif] if it contains [gif], else [.png]; otherwise one starting with
    [video/] yields the body under the subtype, [mp4] when that is empty;
    otherwise [text/csv] yields [.csv]; otherwise a spreadsheet type yields
    [.xlsx] for the OOXML type and [.xls] else; otherwise a document type
    yields [.docx] for the OOXML type and [.doc] else; otherwise
    [application/zip] yields [.zip]; and a content type matching no row, such
    as [application/octet-stream], yields exactly the fallback [.html].  In
    particular [image/jpeg] yields exactly one [.jpg]. *)
Theorem dispatch_outcomes (contentType : string) (w : World) :
  sizeExceeded (response_headers response !! "content-length") = false →
  response_headers response !! "content-type" = Some contentType →
  let stored :=
    storedExactly archiveSubDir hash baseUrl w
      (sessionSteps ext normalizedUrl hash archiveSubDir baseUrl w) in
  let has := JsString.includes contentType in
  let starts := JsString.startsWith contentType in
  (has "text/html" = true →
     stored [ ("html", "html", htmlContent); ("pdf", "pdf", pdfData);
              ("screenshot", "png", pngData) ]) ∧
  (has "text/html" = false →
   (has "application/pdf" = true → stored [ ("file", "pdf", buffer) ]) ∧
   (has "application/pdf" = false →
    (starts "image/" = true →
       stored [ ("file",
                 if has "jpeg" then "jpg" else if has "gif" then "gif" else "png",
                 buffer) ]) ∧
    (starts "image/" = false →
     (starts "video/" = true →
        ∀ subtype tail,
          JsString.includes subtype "/" = false →
          contentType = "video/" +:+ subtype ∨
          contentType = "video/" +:+ subtype +:+ "/" +:+ tail →
          stored [ ("file", if JsString.truthy subtype then subtype else "mp4",
                    buffer) ]) ∧
     (starts "video/" = false →
      (has "text/csv" = true → stored [ ("file", "csv", buffer) ]) ∧
      (has "text/csv" = false →
       (has "application/vnd.ms-excel" ||
        has "application/vnd.openxmlformats-officedocument.spreadsheetml.sheet"
        = true →
          stored [ ("file",
                    if has "openxmlformats-officedocument.spreadsheetml.sheet"
                    then "xlsx" else "xls",
                    buffer) ]) ∧
       (has "application/vnd.ms-excel" ||
        has "application/vnd.openxmlformats-officedocument.spreadsheetml.sheet"
        = false →
        (has "application/msword" ||
         has "application/vnd.openxmlformats-officedocument.wordprocessingml.document"
         = true →
           stored [ ("file",
                     if has "openxmlformats-officedocument.wordprocessingml.document"
                     then "docx" else "doc",
                     buffer) ]) ∧
        (has "application/msword" ||
         has "application/vnd.openxmlformats-officedocument.wordprocessingml.document"
         = false →
         (has "application/zip" = true → stored [ ("file", "zip", buffer) ]) ∧
         (has "application/zip" = false →
            stored [ ("html", "html", htmlContent) ])))))))) ∧
  (contentType = "image/jpeg" → stored [ ("file", "jpg", buffer) ]) ∧
  (contentType = "application/octet-stream" →
     stored [ ("html", "html", htmlContent) ]).
Proof.
  intros Hsize Htype. cbv zeta.
  rewrite (sessionSteps_dispatched _ _ _ _ _ _ (ok_newPage _ _ _ _ _ _ Hok)
             (ok_goto _ _ _ _ _ _ Hok) _ Hsize).
  rewrite Htype. simpl default. unfold runSaver, dispatch.
  split; [intros ->; apply stored_bundle|].
  split; cycle 1.
  { split; intros ->; [apply (stored_body "jpg")|apply stored_markup]. }
  intros ->. split; [intros ->; apply stored_body|].
  intros ->. split; [intros ->; apply stored_body|].
  intros ->. split.
  { intros -> subtype tail Hsub Hshape. cbv beta iota.
    assert (videoExt contentType
            = if JsString.truthy subtype then subtype else "mp4") as ->
      by (destruct Hshape as [-> | ->]; by apply videoExt_second_segment).
    apply stored_body. }
  intros ->. split; [intros ->; apply stored_body|].
  intros ->. split; [intros ->; apply stored_body|].
  intros ->. split; [intros ->; apply stored_body|].
  intros ->. split; intros ->; [apply stored_body|apply stored_markup].
Qed.

End TableFacts.

Lemma dispatch_outcomes_witness :
  let stored contentType :=
    storedExactly "/srv/archive/da39a3ee" "da39a3ee"
      "http://localhost:3000/files/da39a3ee" Sample.world
      (sessionSteps (Sample.allGood (Sample.respond contentType))
         "https://example.com/" "da39a3ee" "/srv/archive/da39a3ee"
         "http://localhost:3000/files/da39a3ee" Sample.world) in
  stored "text/html; charset=utf-8"
    [ ("html", "html", "<html></html>"); ("pdf", "pdf", "%PDF-1.4");
      ("screenshot", "png", "PNG") ] ∧
  stored "application/vnd.openxmlformats-officedocument.spreadsheetml.sheet"
    [ ("file", "xlsx", "raw-body") ] ∧
  stored "image/gif" [ ("file", "gif", "raw-body") ] ∧
  stored "application/octet-stream" [ ("html", "html", "<html></html>") ].
Proof.
  pose (run := λ contentType,
    dispatch_outcomes (Sample.allGood (Sample.respond contentType))
      "https://example.com/" "da39a3ee" "/srv/archive/da39a3ee"
      "http://localhost:3000/files/da39a3ee" (Sample.respond contentType)
      "<html></html>" "%PDF-1.4" "PNG" "raw-body"
      (allGood_succeeds (Sample.respond contentType) eq_refl)
      contentType Sample.world eq_refl eq_refl).
  intros stored. repeat split.
  - apply (proj1 (run "text/html; charset=utf-8")). reflexivity.
  - destruct (run "application/vnd.openxmlformats-officedocument.spreadsheetml.sheet")
      as (_ & Hrows & _).
    destruct (Hrows eq_refl) as (_ & Hrows1). destruct (Hrows1 eq_refl) as (_ & Hrows2).
    destruct (Hrows2 eq_refl) as (_ & Hrows3). destruct (Hrows3 eq_refl) as (_ & Hrows4).
    destruct (Hrows4 eq_refl) as (Hexcel & _). apply (Hexcel eq_refl).
  - destruct (run "image/gif") as (_ & Hrows & _).
    destruct (Hrows eq_refl) as (_ & Hrows1). destruct (Hrows1 eq_refl) as (Himage & _).
    apply (Himage eq_refl).
  - apply (proj2 (proj2 (proj2 (run "application/octet-stream")))). reflexivity.
Defined.
